(** * Crypto volatility risk analyzer: the analysis transform and its callers

    A shallow embedding of [backend.py] ([get_risk_level],
    [fetch_and_analyze_data], [analyze_market]) and of the pages of
    [frontend.py] ([show_login], [show_register], [get_manual_risk_level],
    [get_market_analysis] in direct mode, [show_dashboard] up to what it
    draws from, and the controller that picks the page of a run).

    Numbers are the binary64 floats of Python, embedded as Rocq's primitive
    [float]; their arithmetic is the IEEE 754 arithmetic that the kernel
    evaluates and that [FloatAxioms] specifies through [SpecFloat].

    The pandas and numpy calls of the source are embedded by what they
    compute in pandas 1.x and 2.x (the versions whose datetime index is in
    nanoseconds, as line 76 of the source says), default arguments
    included: [skipna] reductions leave NaN entries out, [pct_change] fills
    a missing price with the last one before it and is then
    [s / s.shift(1) - 1], [std] is the square root of the two-pass variance
    with [ddof = 1], whose sums are numpy's [add.reduce] (pairwise, with
    eight accumulators) over the column with 0 in place of NaN.  A JSON
    [null] among the prices arrives as NaN.

    Code that can raise or print is written in a small monad over the
    output stream; the reply of the market-chart request is an input. *)

From Stdlib Require Import Floats ZArith Lia Bool.
From stdpp Require Import gmap strings list pretty.

Local Open Scope string_scope.
Local Open Scope list_scope.
Local Open Scope Z_scope.

(** ** numpy and pandas operations used by the backend *)

Module Np.

(** [np.isnan]. *)
Definition isnan (x : float) : bool := PrimFloat.is_nan x.

(** [np.sqrt]. *)
Definition sqrt (x : float) : float := PrimFloat.sqrt x.

(** [np.maximum] on two scalars: the first operand wins ties. *)
Definition maximum (a b : float) : float :=
  if (b <=? a)%float || isnan a then a else b.

(** [np.minimum] on two scalars. *)
Definition minimum (a b : float) : float :=
  if (a <=? b)%float || isnan a then a else b.

(** The loop [for (i = 0; i < n; i++) res += a[i]]. *)
Definition add_loop (res : float) (a : list float) : float :=
  fold_left PrimFloat.add a res.

(** [((r[0] + r[1]) + (r[2] + r[3])) + ((r[4] + r[5]) + (r[6] + r[7]))]. *)
Definition add_tree (r : list float) : float :=
  match r with
  | [r0; r1; r2; r3; r4; r5; r6; r7] =>
      (((r0 + r1) + (r2 + r3)) + ((r4 + r5) + (r6 + r7)))%float
  | _ => PrimFloat.nan
  end.

(** [blocks] rounds of [r[j] += a[i + j]] for [j] from 0 to 7: the eight
    accumulators, and the entries not yet added. *)
Fixpoint add_blocks (blocks : nat) (r a : list float) : list float * list float :=
  match blocks with
  | O => (r, a)
  | S blocks' => add_blocks blocks' (zip_with PrimFloat.add r (take 8 a)) (drop 8 a)
  end.

(** The middle case of [pairwise_sum], for 8 to 128 entries: eight
    accumulators over the whole blocks of eight, added as a tree, then the
    entries left over one by one. *)
Definition block_sum (a : list float) : float :=
  let '(r, rest) := add_blocks (length a / 8 - 1) (take 8 a) (drop 8 a) in
  add_loop (add_tree r) rest.

(** numpy's [DOUBLE_pairwise_sum]: up to 7 entries are added one by one
    from [-0.0], up to 128 by [block_sum], and a longer array is split at
    a multiple of eight near its middle.  [fuel] bounds the depth of the
    splitting; the length of the array is always enough. *)
Fixpoint pairwise_sum_rec (fuel : nat) (a : list float) : float :=
  let n := length a in
  if (n <? 8)%nat then add_loop PrimFloat.neg_zero a
  else if (n <=? 128)%nat then block_sum a
  else
    match fuel with
    | O => block_sum a
    | S fuel' =>
        let n2 := (n / 2 - (n / 2) mod 8)%nat in
        (pairwise_sum_rec fuel' (take n2 a) + pairwise_sum_rec fuel' (drop n2 a))%float
    end.

Definition pairwise_sum (a : list float) : float := pairwise_sum_rec (length a) a.

(** [a.sum()], that is [np.add.reduce] over a contiguous float64 array:
    the identity [-0.0] of the addition plus the pairwise sum; 0 for an
    empty array, the array being handed to the inner loop in one piece,
    as a column of a few thousand entries is.  (Releases of numpy that
    start from [+0.0] give the same sum up to the sign of a zero.) *)
Definition sum (a : list float) : float :=
  match a with
  | [] => 0%float
  | _ :: _ => (PrimFloat.neg_zero + pairwise_sum a)%float
  end.

End Np.

Module Series.

(** A pandas [Series] of dtype float64, by position. *)
Abbreviation t := (list float).

(** [s.dropna()]. *)
Definition dropna (s : t) : t := filter (fun x => Np.isnan x = false) s.

(** [s.fillna(v)]. *)
Definition fillna (v : float) (s : t) : t :=
  map (fun x => if Np.isnan x then v else x) s.

(** [s.shift(1)]: one position down, NaN first, same length. *)
Definition shift (s : t) : t :=
  match s with
  | [] => []
  | _ :: _ => PrimFloat.nan :: removelast s
  end.

(** [s.ffill()]: a NaN entry takes the last entry before it that is not
    NaN, and stays NaN when there is none.  [last] is that entry. *)
Fixpoint ffill_from (last : option float) (s : t) : t :=
  match s with
  | [] => []
  | x :: s' =>
      if Np.isnan x then
        match last with
        | Some v => v
        | None => x
        end :: ffill_from last s'
      else x :: ffill_from (Some x) s'
  end.

Definition ffill (s : t) : t := ffill_from None s.

(** [s.pct_change()], whose default [fill_method] pads the series first:
    [data = s.ffill()], then [data / data.shift(1) - 1] position by
    position. *)
Definition pct_change (s : t) : t :=
  let data := ffill s in
  zip_with (fun cur prev => (cur / prev - 1)%float) data (shift data).

(** [s * k]. *)
Definition scale (k : float) (s : t) : t := map (fun x => (x * k)%float) s.

(** [s.cummax()] (skipna): a NaN entry stays NaN and does not take part in
    the running maximum.  [acc] is the maximum so far, [None] before the
    first entry that is not NaN. *)
Fixpoint cummax_from (acc : option float) (s : t) : t :=
  match s with
  | [] => []
  | x :: s' =>
      if Np.isnan x then PrimFloat.nan :: cummax_from acc s'
      else
        let m := match acc with
                 | None => x
                 | Some a => Np.maximum a x
                 end in
        m :: cummax_from (Some m) s'
  end.

Definition cummax (s : t) : t := cummax_from None s.

(** [s.min()] (skipna): the minimum of the entries that are not NaN, NaN
    when there is none. *)
Definition min (s : t) : float :=
  match dropna s with
  | [] => PrimFloat.nan
  | x :: xs => fold_left Np.minimum xs x
  end.

(** The float of a count (of a series shorter than 2^63). *)
Definition of_count (n : nat) : float := PrimFloat.of_uint63 (Uint63.of_Z (Z.of_nat n)).

(** pandas' [nanops.nanvar] (skipna; the path taken without the optional
    bottleneck package): [count] entries are not NaN;
    NaN when [count <= ddof]; otherwise, over the values with 0 put in
    place of NaN, [avg = values.sum() / count], the squares
    [(avg - values) ** 2] with 0 put at the masked places again, and
    [sqr.sum() / (count - ddof)]. *)
Definition nanvar (ddof : nat) (s : t) : float :=
  let count := length (dropna s) in
  if (count <=? ddof)%nat then PrimFloat.nan
  else
    let values := fillna 0 s in
    let avg := (Np.sum values / of_count count)%float in
    let sqr :=
      zip_with (fun x v => if Np.isnan x then 0%float
                           else ((avg - v) * (avg - v))%float) s values in
    (Np.sum sqr / of_count (count - ddof))%float.

(** [s.std()]: skipna, [ddof = 1]; [nanstd] is [np.sqrt(nanvar(...))]. *)
Definition std (s : t) : float := Np.sqrt (nanvar 1 s).

(** [s.iloc[-1]]: the last entry, [None] on an empty series (where pandas
    raises IndexError). *)
Definition iloc_last (s : t) : option float := last s.

End Series.

(** ** Exceptions, results and the output stream *)

(** The exceptions the modelled code can meet. *)
Inductive exn :=
| RequestException (msg : string)
| OutOfBoundsDatetime (msg : string)
| IndexError (msg : string)
| HTTPException (status_code : Z) (detail : string).

(** [str(e)]; for [HTTPException] the rendering of Starlette,
    ["<status_code>: <detail>"]. *)
Definition str (e : exn) : string :=
  match e with
  | RequestException msg => msg
  | OutOfBoundsDatetime msg => msg
  | IndexError msg => msg
  | HTTPException c d => (pretty c ++ ": " ++ d)%string
  end.

(** A call either returns a value or raises. *)
Inductive result (A : Type) :=
| Ok (a : A)
| Raise (e : exn).
Arguments Ok {A} a.
Arguments Raise {A} e.

(** What the process has printed so far, one entry per [print]. *)
Definition stdout := list string.

(** Code that may print and may raise. *)
Definition M (A : Type) : Type := stdout -> result A * stdout.

Definition ret {A} (a : A) : M A := fun out => (Ok a, out).
Definition raise {A} (e : exn) : M A := fun out => (Raise e, out).
Definition print (line : string) : M unit := fun out => (Ok tt, out ++ [line]).

Definition bind {A B} (m : M A) (k : A -> M B) : M B :=
  fun out =>
    match m out with
    | (Ok a, out') => k a out'
    | (Raise e, out') => (Raise e, out')
    end.

(** [try: body  except Exception as e: handler e]. *)
Definition try_except {A} (body : M A) (handler : exn -> M A) : M A :=
  fun out =>
    match body out with
    | (Ok a, out') => (Ok a, out')
    | (Raise e, out') => handler e out'
    end.

Notation "x <- m ;; k" := (bind m (fun x => k))
  (at level 100, m at next level, right associativity).
Notation "m ;;; k" := (bind m (fun _ => k))
  (at level 100, right associativity).

(** ** backend.py *)

(** [MarketDataResponse]: the shape of the dictionary that
    [fetch_and_analyze_data] returns. *)
Record MarketDataResponse := {
  prices : list float;
  current_price : float;
  volatility : float;
  max_drawdown : float;
  risk_level : string;
  risk_color : string;
  daily_returns : list float;
  timestamps : list Z
}.

(** [get_risk_level]: the pair (color, level). *)
Definition get_risk_level (vol : float) : string * string :=
  if (100 <? vol)%float then ("#ff2b2b", "EXTREME ☢️")
  else if (60 <? vol)%float then ("#ff9f1c", "HIGH 🔥")
  else if (30 <? vol)%float then ("#fbd400", "MODERATE ⚖️")
  else ("#2ec4b6", "LOW 🛡️").

(** What the market-chart request gives back: the request or the decoding
    of its body raises, or a JSON object arrives, whose ["prices"] entry (a
    list of [[timestamp_ms, price]] pairs) may be missing. *)
Inductive upstream :=
| Unreachable (e : exn)
| Json (prices_field : option (list (Z * float))).

(** [requests.get(url, params).json()]. *)
Definition fetch (reply : upstream) : M (option (list (Z * float))) :=
  match reply with
  | Unreachable e => raise e
  | Json field => ret field
  end.

(** The instants a [datetime64[ns]] index can hold, as nanoseconds since the
    epoch. *)
Definition ns_min : Z := - 2 ^ 63 + 1.
Definition ns_max : Z := 2 ^ 63 - 1.
Definition in_ns_range (ms : Z) : bool :=
  (ns_min <=? ms * 1000000) && (ms * 1000000 <=? ns_max).

(** [pd.to_datetime(col, unit="ms")] followed at the end by
    [index.astype('int64')]: each instant in nanoseconds;
    OutOfBoundsDatetime outside the range of the index. *)
Definition to_datetime_ms (col : list Z) : M (list Z) :=
  if forallb in_ns_range col then ret (map (fun ms => ms * 1000000) col)
  else raise (OutOfBoundsDatetime "cannot convert input with unit 'ms'").

(** [df['price'].iloc[-1]]. *)
Definition iloc_last (s : Series.t) : M float :=
  match Series.iloc_last s with
  | Some x => ret x
  | None => raise (IndexError "single positional indexer is out-of-bounds")
  end.

(** The percent decline of price [p] from the peak [peak]. *)
Definition drawdown (p peak : float) : float := ((p - peak) / peak * 100)%float.

(** The drawdown column,
    [(df['price'] - df['price'].cummax()) / df['price'].cummax() * 100]. *)
Definition drawdowns (price : Series.t) : Series.t :=
  Series.scale 100
    (zip_with PrimFloat.div
       (zip_with PrimFloat.sub price (Series.cummax price))
       (Series.cummax price)).

(** The column [df['daily_return'] = df['price'].pct_change() * 100]. *)
Definition daily_return (price : Series.t) : Series.t :=
  Series.scale 100 (Series.pct_change price).

(** [if np.isnan(x): x = 0]. *)
Definition nan_to_zero (x : float) : float := if Np.isnan x then 0%float else x.

(** The body of the [try] block of [fetch_and_analyze_data]. *)
Definition analyze_body (reply : upstream) : M (option MarketDataResponse) :=
  data <- fetch reply ;;
  match data with
  | None => ret None
  | Some rows =>
      let timestamp := map fst rows in
      let price : Series.t := map snd rows in
      date <- to_datetime_ms timestamp ;;
      let daily_return := daily_return price in
      current_price <- iloc_last price ;;
      let '(vol, max_drawdown) :=
        if (length rows <? 2)%nat then (0%float, 0%float)
        else ((Series.std daily_return * Np.sqrt 365)%float,
              Series.min (drawdowns price)) in
      let vol := nan_to_zero vol in
      let max_drawdown := nan_to_zero max_drawdown in
      let '(risk_color, risk_level) := get_risk_level vol in
      ret (Some {| prices := price;
                   current_price := current_price;
                   volatility := vol;
                   max_drawdown := max_drawdown;
                   risk_level := risk_level;
                   risk_color := risk_color;
                   daily_returns := Series.fillna 0 daily_return;
                   timestamps := date |})
  end.

(** [fetch_and_analyze_data]: [None] when the reply has no prices entry. *)
Definition fetch_and_analyze_data (reply : upstream) : M (option MarketDataResponse) :=
  try_except (analyze_body reply)
    (fun e => print ("Error in calculation: " ++ str e)%string ;;; raise e).

(** [analyze_market], the POST /analyze handler.  [HTTPException] is an
    [Exception], so the handler of the [try] also receives the one raised
    inside it. *)
Definition analyze_market (reply : upstream) : M MarketDataResponse :=
  try_except
    (result <- fetch_and_analyze_data reply ;;
     match result with
     | None => raise (HTTPException 404 "Coin data not found")
     | Some r => ret r
     end)
    (fun e => print ("Error: " ++ str e)%string ;;; raise (HTTPException 500 (str e))).

(** The status code the HTTP layer answers with: 200 with the record as
    body, or the status of the [HTTPException] that left the handler. *)
Definition http_status (r : result MarketDataResponse) : Z :=
  match r with
  | Ok _ => 200
  | Raise (HTTPException c _) => c
  | Raise _ => 500
  end.

(** ** frontend.py: the registration form *)

(** [st.session_state]. *)
Record session_state := {
  logged_in : bool;
  username : option string;
  users : gmap string string;
  page : string
}.

(** The state a fresh browser session starts with (lines 35-43). *)
Definition initial_session : session_state :=
  {| logged_in := false; username := None;
     users := {["admin" := "1234"]}; page := "login" |}.

(** One submission of the page: the three text inputs and which button
    was pressed. *)
Record register_form := {
  new_user : string;
  new_pass : string;
  confirm_pass : string;
  submit : bool;
  back_to_login : bool
}.

(** What the page shows in answer. *)
Inductive notice :=
| st_error (msg : string)
| st_success (msg : string).

(** Python's truth value of a string. *)
Definition truthy (s : string) : bool := negb (String.eqb s "").

(** [show_register]: the session state after the run, the notices shown, and
    whether [st.rerun()] ended the run. *)
Definition show_register (f : register_form) (st : session_state)
  : session_state * list notice * bool :=
  let '(st1, shown, rerun) :=
    if submit f then
      if bool_decide (is_Some (users st !! new_user f)) then
        (st, [st_error "Username already exists!"], false)
      else if negb (String.eqb (new_pass f) (confirm_pass f)) then
        (st, [st_error "Passwords do not match!"], false)
      else if negb (truthy (new_user f)) || negb (truthy (new_pass f)) then
        (st, [st_error "Please fill out all fields."], false)
      else
        ({| logged_in := logged_in st; username := username st;
            users := <[new_user f := new_pass f]> (users st);
            page := "login" |},
         [st_success "Account Created! Please Login."], true)
    else (st, [], false) in
  if rerun then (st1, shown, true)
  else if back_to_login f then
    ({| logged_in := logged_in st1; username := username st1;
        users := users st1; page := "login" |}, shown, true)
  else (st1, shown, false).

(** ** The specification's formulas *)

Module Spec.

(** The risk ladder of the specification, top row first. *)
Definition ladder : list (float * (string * string)) :=
  [ (100%float, ("#ff2b2b", "EXTREME ☢️"));
    (60%float, ("#ff9f1c", "HIGH 🔥"));
    (30%float, ("#fbd400", "MODERATE ⚖️")) ].

Definition low : string * string := ("#2ec4b6", "LOW 🛡️").

(** The four tiers, each a pair (color, level). *)
Definition tiers : list (string * string) := map snd ladder ++ [low].

(** Top-down evaluation with strict [>]: the first row whose threshold the
    volatility exceeds, the last tier when there is none. *)
Fixpoint classify (rows : list (float * (string * string))) (vol : float)
  : string * string :=
  match rows with
  | [] => low
  | (threshold, tier) :: rest =>
      if (threshold <? vol)%float then tier else classify rest vol
  end.

(** The running peak at position [i]: the maximum price at or before [i]. *)
Definition running_peak (price : list float) (i : nat) : float :=
  match take (S i) price with
  | [] => PrimFloat.nan
  | x :: xs => fold_left Np.maximum xs x
  end.

(** Drawdown at position [i]. *)
Definition drawdown_at (price : list float) (i : nat) : float :=
  let p := nth i price PrimFloat.nan in
  ((p - running_peak price i) / running_peak price i * 100)%float.

(** The most negative drawdown over all positions (where it is defined). *)
Definition max_drawdown (price : list float) : float :=
  Series.min (map (drawdown_at price) (seq 0 (length price))).



End Spec.

(** Strictly increasing prices. *)
Fixpoint strictly_increasing (price : list float) : bool :=
  match price with
  | a :: ((b :: _) as rest) => (a <? b)%float && strictly_increasing rest
  | _ => true
  end.

(** A price of the data model: a float that is [>= 0]. *)
Definition nonneg (p : float) : bool := (0 <=? p)%float.

(** A price that is finite and [> 0]. *)
Definition positive_finite (p : float) : bool :=
  (0 <? p)%float && (p <? infinity)%float.

(** A peak at which no drawdown is defined: a zero or [+infinity]. *)
Definition zero_or_inf (x : float) : Prop :=
  (exists s, Prim2SF x = S754_zero s) \/ Prim2SF x = S754_infinity false.

(** ** frontend.py: the other pages and the controller *)

(** [get_manual_risk_level]: the triple (level, color, advice). *)
Definition get_manual_risk_level (price_change : float)
  : string * string * string :=
  if (15 <? price_change)%float then
    ("EXTREME RISK ☢️", "#ff2b2b",
     "Catastrophic! Indicates a crash or major manipulation.")
  else if (7 <? price_change)%float then
    ("HIGH RISK 🔥", "#ff9f1c",
     "Significant movement. Typical for altcoins or news events.")
  else if (3 <? price_change)%float then
    ("MODERATE RISK ⚖️", "#fbd400", "Standard daily volatility for crypto.")
  else ("LOW RISK 🛡️", "#2ec4b6", "Very stable market conditions.").

(** One submission of the login page: the two text inputs, the button of
    the form and the button under it. *)
Record login_form := {
  username_input : string;
  password_input : string;
  sign_in : bool;
  create_new_account : bool
}.

(** [show_login]: the session state after the run, the notices shown, and
    whether [st.rerun()] ended the run. *)
Definition show_login (f : login_form) (st : session_state)
  : session_state * list notice * bool :=
  let '(st1, shown, rerun) :=
    if sign_in f then
      if bool_decide (is_Some (users st !! username_input f))
         && bool_decide (users st !! username_input f = Some (password_input f))
      then
        ({| logged_in := true; username := Some (username_input f);
            users := users st; page := page st |},
         [st_success "Login Successful!"], true)
      else (st, [st_error "Invalid Username or Password"], false)
    else (st, [], false) in
  if rerun then (st1, shown, true)
  else if create_new_account f then
    ({| logged_in := logged_in st1; username := username st1;
        users := users st1; page := "register" |}, shown, true)
  else (st1, shown, false).

(** The deployment switch of the source. *)
Definition USE_SEPARATE_BACKEND : bool := false.

(** [get_market_analysis], one call that misses the cache: the record or
    [None], with the errors it shows.  [api_mode] stands for the branch
    that posts to a separate backend, which the switch turns off. *)
Definition get_market_analysis
    (api_mode : M (option MarketDataResponse * list notice))
    (reply : upstream) : M (option MarketDataResponse * list notice) :=
  if USE_SEPARATE_BACKEND then api_mode
  else
    try_except
      (data <- fetch_and_analyze_data reply ;; ret (data, []))
      (fun e =>
         ret (None, [st_error ("Error processing data locally: " ++ str e)%string])).

(** What the user did on the dashboard, and what the market-chart request
    for the selected coin and horizon gives. *)
Record dashboard_input := {
  logout : bool;
  manual_price_change : float;
  analyze_button : bool;
  market_reply : upstream
}.

(** What the dashboard draws: the manual scenario when asked for, the
    record its KPIs and charts are drawn from, and the errors. *)
Record dashboard_view := {
  manual_scenario : option (string * string * string);
  live_data : option MarketDataResponse;
  dashboard_errors : list notice
}.

(** [show_dashboard]: the session state after the run and what was drawn
    ([None] when Logout ended the run before anything was). *)
Definition show_dashboard
    (api_mode : M (option MarketDataResponse * list notice))
    (d : dashboard_input) (st : session_state)
  : M (session_state * option dashboard_view) :=
  if logout d then
    ret ({| logged_in := false; username := None;
            users := users st; page := page st |}, None)
  else
    let manual :=
      if analyze_button d
      then Some (get_manual_risk_level (manual_price_change d))
      else None in
    answer <- get_market_analysis api_mode (market_reply d) ;;
    let '(data, shown) := answer in
    match data with
    | Some r =>
        ret (st, Some {| manual_scenario := manual; live_data := Some r;
                         dashboard_errors := shown |})
    | None =>
        ret (st, Some {| manual_scenario := manual; live_data := None;
                         dashboard_errors :=
                           shown ++ [st_error
                             "⚠️ No data available or backend is unreachable."] |})
    end.

(** Everything a user can have entered when a run of the script starts;
    the run reads the part of the page it draws. *)
Record widgets := {
  on_login : login_form;
  on_register : register_form;
  on_dashboard : dashboard_input
}.

(** What one run drew. *)
Inductive rendered :=
| LoginPage (shown : list notice)
| RegisterPage (shown : list notice)
| DashboardPage (view : option dashboard_view).

(** The app flow controller at the end of the script: one run. *)
Definition app (api_mode : M (option MarketDataResponse * list notice))
    (w : widgets) (st : session_state) : M (session_state * rendered) :=
  if logged_in st then
    drawn <- show_dashboard api_mode (on_dashboard w) st ;;
    ret (fst drawn, DashboardPage (snd drawn))
  else if String.eqb (page st) "register" then
    let '(st', shown, _) := show_register (on_register w) st in
    ret (st', RegisterPage shown)
  else
    let '(st', shown, _) := show_login (on_login w) st in
    ret (st', LoginPage shown).

(** The session state after a sequence of runs (a run that raised would
    leave it as it was). *)
Fixpoint session_after (api_mode : M (option MarketDataResponse * list notice))
    (ws : list widgets) (st : session_state) (out : stdout) : session_state :=
  match ws with
  | [] => st
  | w :: ws' =>
      match app api_mode w st out with
      | (Ok (st', _), out') => session_after api_mode ws' st' out'
      | (Raise _, out') => session_after api_mode ws' st out'
      end
  end.

(** ** Further predicates on series and tiers *)

(** The rank of a tier by its color: 0 for the mildest. *)
Definition color_rank (color : string) : nat :=
  if String.eqb color "#ff2b2b" then 3
  else if String.eqb color "#ff9f1c" then 2
  else if String.eqb color "#fbd400" then 1
  else 0.

(** Prices that never fall. *)
Fixpoint non_decreasing (price : list float) : bool :=
  match price with
  | a :: ((b :: _) as rest) => (a <=? b)%float && non_decreasing rest
  | _ => true
  end.

(** The sign bit is clear, or the number is a zero: what [0 <= x] means
    on the specification of the floats. *)
Definition SFnonneg (x : spec_float) : Prop :=
  match x with
  | S754_zero _ | S754_infinity false | S754_finite false _ _ => True
  | _ => False
  end.

(** A session state that the pages can leave behind: the demo account is
    there, no account has an empty name or password, a logged-in session
    names a registered user, a logged-out one names nobody, and the page is
    one of the two the controller tells apart. *)
Definition session_ok (st : session_state) : Prop :=
  users st !! "admin" = Some "1234" /\
  (forall u p, users st !! u = Some p -> u <> "" /\ p <> "") /\
  (logged_in st = true ->
   exists u, username st = Some u /\ is_Some (users st !! u)) /\
  (logged_in st = false -> username st = None) /\
  (page st = "login" \/ page st = "register").

(** The last price at or before position [i] that is not NaN (NaN when
    there is none): what a forward fill puts at [i]. *)
Definition last_valid (price : list float) (i : nat) : float :=
  default PrimFloat.nan (last (Series.dropna (take (S i) price))).

(** ** Sample series *)

Module Examples.

(** Daily samples from 2023-11-14T22:13:20Z on. *)
Definition daily (price : list float) : list (Z * float) :=
  zip_with (fun i p => (1700000000000 + Z.of_nat i * 86400000, p))
    (seq 0 (length price)) price.

Definition up_down : list (Z * float) :=
  daily [100%float; 110%float; 90%float; 120%float].
Definition flat : list (Z * float) := daily [50%float; 50%float; 50%float].
Definition rising : list (Z * float) := daily [1%float; 2%float; 4%float].

(** A series with a [null] price. *)
Definition gap : list (Z * float) :=
  daily [1%float; PrimFloat.nan; 3%float; 2%float].


End Examples.

(** ** IEEE 754 facts used below, from the specification of the primitives *)

Module IEEE.

Local Open Scope float_scope.

Lemma SFcompare_refl x : x <> S754_nan -> SFcompare x x = Some Eq.
Proof.
  destruct x as [[]|[]| |[] m e]; simpl; try congruence; intros _;
    rewrite Z.compare_refl;
    change (Pos.compare_cont Eq m m) with (Pos.compare m m);
    rewrite Pos.compare_refl; reflexivity.
Qed.

Lemma is_nan_spec x : is_nan x = true <-> Prim2SF x = S754_nan.
Proof.
  unfold is_nan. rewrite FloatAxioms.eqb_spec. unfold SFeqb.
  destruct (Prim2SF x) eqn:E;
    try (rewrite SFcompare_refl by congruence); simpl; split; congruence.
Qed.

Lemma not_nan_spec x : is_nan x = false <-> Prim2SF x <> S754_nan.
Proof.
  rewrite <- is_nan_spec. destruct (is_nan x); split; congruence.
Qed.

(** Case analysis on the two comparisons inside [SFcompare]. *)
Ltac cmp_cases :=
  repeat match goal with
    | |- context [Z.compare ?a ?b] => destruct (Z.compare_spec a b)
    | H : context [Z.compare ?a ?b] |- _ => destruct (Z.compare_spec a b)
    | |- context [Pos.compare_cont Eq ?a ?b] =>
        change (Pos.compare_cont Eq a b) with (Pos.compare a b)
    | H : context [Pos.compare_cont Eq ?a ?b] |- _ =>
        change (Pos.compare_cont Eq a b) with (Pos.compare a b) in H
    | |- context [Pos.compare ?a ?b] => destruct (Pos.compare_spec a b)
    | H : context [Pos.compare ?a ?b] |- _ => destruct (Pos.compare_spec a b)
    end;
  simpl in *; subst; try congruence; try lia.

Lemma SFleb_refl x : x <> S754_nan -> SFleb x x = true.
Proof. intros H. unfold SFleb. now rewrite SFcompare_refl. Qed.

Lemma SFleb_total x y :
  x <> S754_nan -> y <> S754_nan -> SFleb x y = false -> SFleb y x = true.
Proof.
  unfold SFleb.
  destruct x as [[]|[]| |[] mx ex], y as [[]|[]| |[] my ey]; simpl;
    try congruence; intros _ _; cmp_cases.
Qed.

Lemma SFleb_trans x y z :
  SFleb x y = true -> SFleb y z = true -> SFleb x z = true.
Proof.
  unfold SFleb.
  destruct x as [[]|[]| |[] mx ex], y as [[]|[]| |[] my ey],
    z as [[]|[]| |[] mz ez]; simpl; try congruence; cmp_cases.
Qed.

Lemma SFltb_not_leb x y : SFltb x y = true -> SFleb y x = false.
Proof.
  unfold SFltb, SFleb.
  destruct x as [[]|[]| |[] mx ex], y as [[]|[]| |[] my ey]; simpl;
    try congruence; cmp_cases.
Qed.

Lemma leb_refl x : is_nan x = false -> (x <=? x) = true.
Proof. rewrite not_nan_spec, leb_spec. apply SFleb_refl. Qed.

Lemma leb_total x y :
  is_nan x = false -> is_nan y = false -> (x <=? y) = false -> (y <=? x) = true.
Proof. rewrite !not_nan_spec, !leb_spec. apply SFleb_total. Qed.

Lemma leb_trans x y z : (x <=? y) = true -> (y <=? z) = true -> (x <=? z) = true.
Proof. rewrite !leb_spec. apply SFleb_trans. Qed.

Lemma ltb_not_leb x y : (x <? y) = true -> (y <=? x) = false.
Proof. rewrite ltb_spec, leb_spec. apply SFltb_not_leb. Qed.

Lemma leb_not_nan_l x y : (x <=? y) = true -> is_nan x = false.
Proof.
  rewrite leb_spec, not_nan_spec. unfold SFleb.
  destruct (Prim2SF x); simpl; congruence.
Qed.

Lemma leb_not_nan_r x y : (x <=? y) = true -> is_nan y = false.
Proof.
  rewrite leb_spec, not_nan_spec. unfold SFleb.
  destruct (Prim2SF x), (Prim2SF y); simpl; congruence.
Qed.

Lemma ltb_not_nan_l x y : (x <? y) = true -> is_nan x = false.
Proof.
  rewrite ltb_spec, not_nan_spec. unfold SFltb.
  destruct (Prim2SF x); simpl; congruence.
Qed.

Lemma ltb_not_nan_r x y : (x <? y) = true -> is_nan y = false.
Proof.
  rewrite ltb_spec, not_nan_spec. unfold SFltb.
  destruct (Prim2SF x), (Prim2SF y); simpl; congruence.
Qed.

(** Every comparison with NaN is false. *)
Lemma ltb_nan_r x y : is_nan y = true -> (x <? y) = false.
Proof.
  rewrite is_nan_spec, ltb_spec. intros ->. unfold SFltb.
  destruct (Prim2SF x); reflexivity.
Qed.

Lemma Prim2SF_zero : Prim2SF 0 = S754_zero false.
Proof. reflexivity. Qed.

Lemma sub_self x s m e : Prim2SF x = S754_finite s m e -> x - x = 0.
Proof.
  intros H. apply Prim2SF_inj. rewrite sub_spec, H.
  unfold SF64sub, SFsub. rewrite Z.sub_diag. reflexivity.
Qed.

(** Rounding a mantissa that is not negative never gives NaN. *)

Section Rounding.

Local Open Scope Z_scope.
Variables prec emax : Z.

Lemma shr_1_nonneg mrs : 0 <= shr_m mrs -> 0 <= shr_m (shr_1 mrs).
Proof.
  destruct mrs as [m r s]. destruct m as [|p|p]; simpl; intros H; try lia;
    destruct p; simpl; lia.
Qed.

Lemma iter_shr_1_nonneg p : forall mrs,
  0 <= shr_m mrs -> 0 <= shr_m (SpecFloat.iter_pos shr_1 p mrs).
Proof.
  induction p as [p IH|p IH|]; intros mrs H; simpl.
  - apply IH, IH, shr_1_nonneg, H.
  - apply IH, IH, H.
  - apply shr_1_nonneg, H.
Qed.

Lemma shr_fexp_nonneg m e l :
  0 <= m -> 0 <= shr_m (fst (shr_fexp prec emax m e l)).
Proof.
  intros H. unfold shr_fexp, shr.
  assert (0 <= shr_m (shr_record_of_loc m l)) as H0
    by (destruct l as [|[]]; exact H).
  destruct (fexp prec emax (Zdigits2 m + e) - e); simpl; auto.
  now apply iter_shr_1_nonneg.
Qed.

Lemma round_nearest_even_nonneg m l : 0 <= m -> 0 <= round_nearest_even m l.
Proof.
  intros H. destruct l as [|[]]; simpl; try lia. destruct (Z.even m); lia.
Qed.

Lemma binary_round_aux_not_nan sx mx ex lx :
  0 <= mx -> binary_round_aux prec emax sx mx ex lx <> S754_nan.
Proof.
  intros H. unfold binary_round_aux.
  pose proof (shr_fexp_nonneg mx ex lx H) as H1.
  destruct (shr_fexp prec emax mx ex lx) as [mrs' e']. simpl in H1.
  pose proof (shr_fexp_nonneg _ e' loc_Exact
                (round_nearest_even_nonneg _ (loc_of_shr_record mrs') H1)) as H2.
  destruct (shr_fexp prec emax _ e' loc_Exact) as [mrs'' e'']. simpl in H2.
  destruct (shr_m mrs'') as [|m|m]; try discriminate; [|lia].
  destruct (e'' <=? emax - prec); discriminate.
Qed.

Lemma binary_normalize_not_nan m e szero :
  binary_normalize prec emax m e szero <> S754_nan.
Proof.
  destruct m as [|p|p]; simpl; try discriminate; unfold binary_round;
    destruct (shl_align _ _ _); now apply binary_round_aux_not_nan.
Qed.

(** A difference is NaN only if an operand is, or both are infinite. *)
Lemma SFsub_not_nan x y :
  x <> S754_nan -> y <> S754_nan ->
  (forall s, x <> S754_infinity s) \/ (forall s, y <> S754_infinity s) ->
  SFsub prec emax x y <> S754_nan.
Proof.
  intros Hx Hy Hinf.
  destruct x as [sx|sx| |sx mx ex], y as [sy|sy| |sy my ey]; simpl;
    try congruence; try (destruct sx, sy; discriminate).
  - destruct Hinf as [H|H]; [now destruct (H sx)|now destruct (H sy)].
  - apply binary_normalize_not_nan.
Qed.

(** A quotient by a finite number other than zero is NaN only if the
    dividend is. *)
Lemma SFdiv_not_nan x sy my ey :
  x <> S754_nan -> SFdiv prec emax x (S754_finite sy my ey) <> S754_nan.
Proof.
  intros Hx. destruct x as [sx|sx| |sx mx ex]; simpl; try congruence.
  unfold SFdiv_core_binary.
  set (s := _ - _ - Z.min _ _).
  set (m' := match s with Z0 => _ | Zpos _ => _ | Zneg _ => _ end).
  assert (0 <= m') as Hm.
  { subst m'. destruct s; try lia. apply Z.shiftl_nonneg. lia. }
  pose proof (Z.div_pos m' (Zpos my) Hm ltac:(lia)) as Hq.
  unfold Z.div in Hq. destruct (Z.div_eucl m' (Zpos my)) as [q r].
  now apply binary_round_aux_not_nan.
Qed.

(** A product with a finite number other than zero is NaN only if the
    other factor is. *)
Lemma SFmul_not_nan x sy my ey :
  x <> S754_nan -> SFmul prec emax x (S754_finite sy my ey) <> S754_nan.
Proof.
  intros Hx. destruct x as [sx|sx| |sx mx ex]; simpl; try congruence.
  apply binary_round_aux_not_nan. lia.
Qed.

End Rounding.

(** *** The square of a difference *)

Section Squares.

Local Open Scope Z_scope.
Variables prec emax : Z.







End Squares.


End IEEE.

(** ** The drawdown column *)

Section Drawdown.

Import IEEE.
Local Open Scope float_scope.

Lemma nonneg_cases x :
  nonneg x = true ->
  (exists s, Prim2SF x = S754_zero s) \/
  Prim2SF x = S754_infinity false \/
  (exists m e, Prim2SF x = S754_finite false m e).
Proof.
  unfold nonneg. rewrite leb_spec, Prim2SF_zero. unfold SFleb.
  destruct (Prim2SF x) as [s|[]| |[] m e]; simpl; try congruence; eauto.
Qed.

Lemma drawdown_at_own_peak x m e :
  Prim2SF x = S754_finite false m e -> drawdown x x = 0.
Proof.
  intros H. unfold drawdown. rewrite (sub_self x _ _ _ H).
  assert (0 / x = 0) as ->; [|reflexivity].
  apply Prim2SF_inj. rewrite div_spec, H. reflexivity.
Qed.

Lemma drawdown_zero_peak p k sp sk :
  Prim2SF p = S754_zero sp -> Prim2SF k = S754_zero sk ->
  is_nan (drawdown p k) = true.
Proof.
  intros Hp Hk. apply is_nan_spec. unfold drawdown.
  rewrite mul_spec, div_spec, sub_spec, Hp, Hk.
  destruct sp, sk; reflexivity.
Qed.

Lemma drawdown_inf_peak p k :
  Prim2SF k = S754_infinity false -> is_nan (drawdown p k) = true.
Proof.
  intros Hk. apply is_nan_spec. unfold drawdown.
  rewrite mul_spec, div_spec, sub_spec, Hk.
  destruct (Prim2SF p) as [[]|[]| |[] m e]; reflexivity.
Qed.

(** The drawdown column, entry by entry. *)
Lemma zip_with_fuse (a b : list float) :
  Series.scale 100 (zip_with PrimFloat.div (zip_with PrimFloat.sub a b) b)
  = zip_with drawdown a b.
Proof.
  revert b. induction a as [|x a IH]; intros [|y b]; simpl; try reflexivity.
  f_equal. apply IH.
Qed.

Lemma drawdowns_zip price :
  drawdowns price = zip_with drawdown price (Series.cummax price).
Proof. apply zip_with_fuse. Qed.

Lemma nonneg_not_nan p : nonneg p = true -> Np.isnan p = false.
Proof. apply leb_not_nan_r. Qed.

Lemma zero_or_inf_not_nan x : zero_or_inf x -> Np.isnan x = false.
Proof.
  intros [[s H]|H]; apply not_nan_spec; rewrite H; discriminate.
Qed.

Lemma maximum_cases a b : Np.maximum a b = a \/ Np.maximum a b = b.
Proof. unfold Np.maximum. destruct (_ || _); auto. Qed.

Lemma drawdowns_from_flat_peak acc l :
  zero_or_inf acc -> Forall (fun p => nonneg p = true) l ->
  In 0 (zip_with drawdown l (Series.cummax_from (Some acc) l)) \/
  Forall (fun e => Np.isnan e = true)
    (zip_with drawdown l (Series.cummax_from (Some acc) l)).
Proof.
  intros Hacc Hl. revert acc Hacc.
  induction Hl as [|p l Hp Hl IH]; intros acc Hacc; simpl.
  - right. constructor.
  - rewrite (nonneg_not_nan p Hp). simpl.
    unfold Np.maximum. rewrite (zero_or_inf_not_nan acc Hacc), orb_false_r.
    destruct (p <=? acc) eqn:Hle.
    + destruct (IH acc Hacc) as [H|H]; [left; now right|right].
      constructor; [|exact H].
      destruct Hacc as [[s Hs]|Hi]; [|now apply drawdown_inf_peak].
      destruct (nonneg_cases p Hp) as [[sp Hz]|[Hi|(m & e & Hf)]].
      * eapply drawdown_zero_peak; eauto.
      * rewrite leb_spec, Hi, Hs in Hle. discriminate.
      * rewrite leb_spec, Hf, Hs in Hle. discriminate.
    + destruct (nonneg_cases p Hp) as [[sp Hz]|[Hi|(m & e & Hf)]].
      * exfalso. rewrite leb_spec, Hz in Hle.
        destruct Hacc as [[s Hs]|Hs]; rewrite Hs in Hle; discriminate.
      * destruct (IH p (or_intror Hi)) as [H|H]; [left; now right|right].
        constructor; [|exact H]. now apply drawdown_inf_peak.
      * left. left. eapply drawdown_at_own_peak; eauto.
Qed.

Lemma drawdowns_flat_or_zero l :
  Forall (fun p => nonneg p = true) l ->
  In 0 (drawdowns l) \/ Forall (fun e => Np.isnan e = true) (drawdowns l).
Proof.
  rewrite drawdowns_zip. unfold Series.cummax.
  intros Hl. destruct Hl as [|p l Hp Hl]; simpl.
  - right. constructor.
  - rewrite (nonneg_not_nan p Hp). simpl.
    destruct (nonneg_cases p Hp) as [[sp Hz]|[Hi|(m & e & Hf)]].
    + destruct (drawdowns_from_flat_peak p l (or_introl (ex_intro _ sp Hz)) Hl)
        as [H|H]; [left; now right|right].
      constructor; [|exact H]. eapply drawdown_zero_peak; eauto.
    + destruct (drawdowns_from_flat_peak p l (or_intror Hi) Hl)
        as [H|H]; [left; now right|right].
      constructor; [|exact H]. now apply drawdown_inf_peak.
    + left. left. eapply drawdown_at_own_peak; eauto.
Qed.

Lemma minimum_le a b :
  Np.isnan a = false -> Np.isnan b = false ->
  (Np.minimum a b <=? a) = true /\ (Np.minimum a b <=? b) = true /\
  Np.isnan (Np.minimum a b) = false.
Proof.
  intros Ha Hb. unfold Np.minimum. rewrite Ha, orb_false_r.
  destruct (a <=? b) eqn:Hle.
  - repeat split; auto using leb_refl.
  - repeat split; auto using leb_refl, leb_total.
Qed.

Lemma fold_minimum_le xs : forall x,
  Np.isnan x = false -> Forall (fun y => Np.isnan y = false) xs ->
  (fold_left Np.minimum xs x <=? x) = true /\
  Forall (fun y => (fold_left Np.minimum xs x <=? y) = true) xs.
Proof.
  induction xs as [|y xs IH]; intros x Hx Hxs; simpl.
  - split; [now apply leb_refl|constructor].
  - inversion Hxs as [|? ? Hy Hxs']; subst.
    destruct (minimum_le x y Hx Hy) as (Hmx & Hmy & Hm).
    destruct (IH _ Hm Hxs') as [H1 H2].
    split; [eapply leb_trans; eauto|].
    constructor; [eapply leb_trans; eauto|exact H2].
Qed.

Lemma dropna_not_nan s : Forall (fun y => Np.isnan y = false) (Series.dropna s).
Proof.
  apply Forall_forall. intros y Hy. unfold Series.dropna in Hy.
  apply list_elem_of_filter in Hy. tauto.
Qed.

Lemma min_le_member s e :
  e ∈ s -> Np.isnan e = false -> (Series.min s <=? e) = true.
Proof.
  intros He Hn.
  assert (e ∈ Series.dropna s) as Hin by (apply list_elem_of_filter; auto).
  pose proof (dropna_not_nan s) as Hall. unfold Series.min.
  destruct (Series.dropna s) as [|x xs]; [inversion Hin|].
  inversion Hall as [|? ? Hx Hxs]; subst.
  destruct (fold_minimum_le xs x Hx Hxs) as [H1 H2].
  inversion Hin; subst; [exact H1|].
  rewrite Forall_forall in H2. auto.
Qed.

Lemma nan_to_zero_not_nan x : Np.isnan (nan_to_zero x) = false.
Proof. unfold nan_to_zero. destruct (Np.isnan x) eqn:H; [reflexivity|exact H]. Qed.

Lemma min_all_nan s :
  Forall (fun e => Np.isnan e = true) s -> Series.min s = nan.
Proof.
  intros H. unfold Series.min.
  assert (Series.dropna s = []) as ->; [|reflexivity].
  unfold Series.dropna. induction H as [|x s Hx Hs IH]; [reflexivity|].
  rewrite filter_cons. destruct (decide _) as [Hd|_]; [congruence|exact IH].
Qed.

Lemma fold_minimum_zeros xs :
  Forall (fun y => y = 0) xs -> fold_left Np.minimum xs 0 = 0.
Proof.
  induction 1 as [|y xs -> _ IH]; simpl; [reflexivity|].
  change (Np.minimum 0 0) with 0. exact IH.
Qed.

Lemma min_zero_or_nan s :
  Forall (fun e => e = 0 \/ Np.isnan e = true) s -> nan_to_zero (Series.min s) = 0.
Proof.
  intros H. unfold Series.min.
  assert (Forall (fun y => y = 0) (Series.dropna s)) as Hz.
  { apply Forall_forall. intros y Hy. unfold Series.dropna in Hy.
    apply list_elem_of_filter in Hy. destruct Hy as [Hn Hy].
    rewrite Forall_forall in H. destruct (H y Hy); congruence. }
  destruct (Series.dropna s) as [|x xs]; [reflexivity|].
  inversion Hz as [|? ? -> Hxs]; subst.
  now rewrite fold_minimum_zeros.
Qed.

Lemma max_drawdown_nonpos l :
  Forall (fun p => nonneg p = true) l ->
  (nan_to_zero (Series.min (drawdowns l)) <=? 0) = true.
Proof.
  intros Hl. destruct (drawdowns_flat_or_zero l Hl) as [H|H].
  - apply list_elem_of_In in H.
    pose proof (min_le_member _ _ H eq_refl) as Hle.
    unfold nan_to_zero, Np.isnan. now rewrite (leb_not_nan_l _ _ Hle).
  - now rewrite (min_all_nan _ H).
Qed.

Lemma drawdown_own_peak_nonneg p :
  nonneg p = true -> drawdown p p = 0 \/ Np.isnan (drawdown p p) = true.
Proof.
  intros Hp. destruct (nonneg_cases p Hp) as [[sp Hz]|[Hi|(m & e & Hf)]].
  - right. eapply drawdown_zero_peak; eauto.
  - right. now apply drawdown_inf_peak.
  - left. eapply drawdown_at_own_peak; eauto.
Qed.

Lemma drawdowns_increasing_from a l :
  strictly_increasing (a :: l) = true -> Forall (fun p => nonneg p = true) l ->
  Forall (fun e => e = 0 \/ Np.isnan e = true)
    (zip_with drawdown l (Series.cummax_from (Some a) l)).
Proof.
  intros Hinc Hl. revert a Hinc.
  induction Hl as [|p l Hp Hl IH]; intros a Hinc; [constructor|].
  simpl in Hinc. apply andb_prop in Hinc as [Hlt Hinc].
  simpl. rewrite (nonneg_not_nan p Hp). simpl.
  assert (Np.maximum a p = p) as ->.
  { unfold Np.maximum, Np.isnan.
    now rewrite (ltb_not_leb _ _ Hlt), (ltb_not_nan_l _ _ Hlt). }
  constructor; [now apply drawdown_own_peak_nonneg|now apply IH].
Qed.

Lemma drawdowns_increasing l :
  strictly_increasing l = true -> Forall (fun p => nonneg p = true) l ->
  Forall (fun e => e = 0 \/ Np.isnan e = true) (drawdowns l).
Proof.
  rewrite drawdowns_zip. unfold Series.cummax.
  intros Hinc Hl. destruct Hl as [|p l Hp Hl]; [constructor|].
  simpl. rewrite (nonneg_not_nan p Hp). simpl.
  constructor; [now apply drawdown_own_peak_nonneg|].
  now apply drawdowns_increasing_from.
Qed.

(** The scan of [cummax] against the prefix maxima of the specification. *)
Lemma cummax_from_lookup l : forall a i,
  Forall (fun p => Np.isnan p = false) l -> (i < length l)%nat ->
  Series.cummax_from (Some a) l !! i
  = Some (fold_left Np.maximum (take (S i) l) a).
Proof.
  induction l as [|p l IH]; intros a i Hl Hi; simpl in Hi; [lia|].
  inversion Hl as [|? ? Hp Hl']; subst. simpl. rewrite Hp.
  destruct i as [|i]; simpl.
  - destruct l; reflexivity.
  - apply IH; [exact Hl'|lia].
Qed.

Lemma cummax_lookup l i :
  Forall (fun p => Np.isnan p = false) l -> (i < length l)%nat ->
  Series.cummax l !! i = Some (Spec.running_peak l i).
Proof.
  intros Hl Hi. unfold Series.cummax, Spec.running_peak.
  destruct l as [|p l]; simpl in Hi; [lia|].
  inversion Hl as [|? ? Hp Hl']; subst. simpl. rewrite Hp.
  destruct i as [|i]; simpl.
  - destruct l; reflexivity.
  - apply cummax_from_lookup; [exact Hl'|lia].
Qed.

Lemma cummax_length l : length (Series.cummax l) = length l.
Proof.
  unfold Series.cummax. generalize (@None float).
  induction l as [|p l IH]; intros acc; simpl; [reflexivity|].
  destruct (Np.isnan p); simpl; now rewrite IH.
Qed.

Lemma drawdowns_spec l :
  Forall (fun p => Np.isnan p = false) l ->
  drawdowns l = map (Spec.drawdown_at l) (seq 0 (length l)).
Proof.
  intros Hl. rewrite drawdowns_zip. apply list_eq. intros i.
  rewrite lookup_zip_with, list_lookup_fmap.
  destruct (decide (i < length l)%nat) as [Hi|Hi].
  - rewrite (lookup_seq_lt _ _ _ Hi). simpl.
    destruct (lookup_lt_is_Some_2 l i Hi) as [p Hp]. rewrite Hp. simpl.
    rewrite (cummax_lookup l i Hl Hi). simpl.
    unfold Spec.drawdown_at, drawdown.
    now rewrite (nth_lookup_Some _ _ _ _ Hp).
  - rewrite (lookup_ge_None_2 l i) by lia.
    rewrite (lookup_seq_ge _ _ _) by lia. reflexivity.
Qed.

Lemma minimum_cases a b : Np.minimum a b = a \/ Np.minimum a b = b.
Proof. unfold Np.minimum. destruct (_ || _); auto. Qed.

Lemma fold_minimum_elem xs : forall x, fold_left Np.minimum xs x ∈ x :: xs.
Proof.
  induction xs as [|y xs IH]; intros x; simpl; [apply elem_of_cons; now left|].
  specialize (IH (Np.minimum x y)).
  apply elem_of_cons in IH as [IH|IH]; rewrite !elem_of_cons.
  - rewrite IH. destruct (minimum_cases x y) as [-> | ->]; auto.
  - auto.
Qed.

(** [nan_to_zero (s.min())] is a lower bound of the entries that are
    defined, and is one of them, or 0 when none is. *)
Lemma min_characterised s :
  (forall e, e ∈ s -> Np.isnan e = false ->
             (nan_to_zero (Series.min s) <=? e) = true) /\
  ((nan_to_zero (Series.min s) ∈ s /\
    Np.isnan (Series.min s) = false) \/
   (Forall (fun e => Np.isnan e = true) s /\ nan_to_zero (Series.min s) = 0)).
Proof.
  pose proof (dropna_not_nan s) as Hall.
  destruct (Series.dropna s) as [|x xs] eqn:E.
  - assert (Forall (fun e => Np.isnan e = true) s) as Hnan.
    { apply Forall_forall. intros e He.
      destruct (Np.isnan e) eqn:Hn; [reflexivity|].
      assert (e ∈ Series.dropna s) as Hin by (apply list_elem_of_filter; auto).
      rewrite E in Hin. inversion Hin. }
    split.
    + intros e He Hn. rewrite Forall_forall in Hnan. rewrite (Hnan e He) in Hn.
      discriminate.
    + right. split; [exact Hnan|]. now rewrite (min_all_nan s Hnan).
  - assert (Series.min s ∈ Series.dropna s) as Hin.
    { unfold Series.min. rewrite E. apply fold_minimum_elem. }
    assert (Np.isnan (Series.min s) = false) as Hn.
    { rewrite E in Hin. rewrite Forall_forall in Hall. now apply Hall. }
    assert (nan_to_zero (Series.min s) = Series.min s) as ->
      by (unfold nan_to_zero; now rewrite Hn).
    split.
    + intros e He Hne. now apply min_le_member.
    + left. split; [|exact Hn].
      unfold Series.dropna in Hin. apply list_elem_of_filter in Hin. tauto.
Qed.

Lemma drawdown_positions price e :
  e ∈ map (Spec.drawdown_at price) (seq 0 (length price)) <->
  exists i, (i < length price)%nat /\ e = Spec.drawdown_at price i.
Proof.
  rewrite list_elem_of_fmap. split.
  - intros (i & -> & Hi). apply elem_of_seq in Hi. exists i. split; [lia|reflexivity].
  - intros (i & Hi & ->). exists i. split; [reflexivity|]. apply elem_of_seq. lia.
Qed.

(** *** Finite prices other than zero *)

Lemma positive_finite_spec p :
  positive_finite p = true -> exists m e, Prim2SF p = S754_finite false m e.
Proof.
  unfold positive_finite. rewrite andb_true_iff, !ltb_spec, Prim2SF_zero.
  change (Prim2SF infinity) with (S754_infinity false). unfold SFltb.
  destruct (Prim2SF p) as [s|[]| |[] m e]; simpl; intros [H1 H2];
    try discriminate; eauto.
Qed.

Lemma positive_finite_nonneg p : positive_finite p = true -> nonneg p = true.
Proof.
  intros (m & e & H)%positive_finite_spec.
  unfold nonneg. now rewrite leb_spec, Prim2SF_zero, H.
Qed.

Lemma Prim2SF_100 : exists m e, Prim2SF 100 = S754_finite false m e.
Proof. do 2 eexists. reflexivity. Qed.


Lemma times_100_defined x : is_nan x = false -> is_nan (x * 100) = false.
Proof.
  rewrite !not_nan_spec, mul_spec. destruct Prim2SF_100 as (m & e & ->).
  apply SFmul_not_nan.
Qed.

(** The drawdown of a finite price from a finite peak other than zero is
    defined. *)
Lemma drawdown_defined p k :
  positive_finite p = true -> positive_finite k = true ->
  Np.isnan (drawdown p k) = false.
Proof.
  intros (mp & ep & Hp)%positive_finite_spec (mk & ek & Hk)%positive_finite_spec.
  unfold drawdown, Np.isnan. apply times_100_defined.
  apply not_nan_spec. rewrite div_spec, Hk. apply SFdiv_not_nan.
  rewrite sub_spec, Hp, Hk. apply SFsub_not_nan; try discriminate.
  left. discriminate.
Qed.


Lemma cummax_from_positive_finite l : forall a,
  positive_finite a = true -> Forall (fun p => positive_finite p = true) l ->
  Forall (fun k => positive_finite k = true) (Series.cummax_from (Some a) l).
Proof.
  induction l as [|p l IH]; intros a Ha Hl; [constructor|].
  inversion Hl as [|? ? Hp Hl']; subst. simpl.
  rewrite (nonneg_not_nan p (positive_finite_nonneg p Hp)).
  assert (positive_finite (Np.maximum a p) = true) as Hm
    by (destruct (maximum_cases a p) as [-> | ->]; assumption).
  constructor; [exact Hm|]. now apply IH.
Qed.

Lemma cummax_positive_finite l :
  Forall (fun p => positive_finite p = true) l ->
  Forall (fun k => positive_finite k = true) (Series.cummax l).
Proof.
  intros Hl. unfold Series.cummax. destruct Hl as [|p l Hp Hl]; [constructor|].
  simpl. rewrite (nonneg_not_nan p (positive_finite_nonneg p Hp)).
  constructor; [exact Hp|]. now apply cummax_from_positive_finite.
Qed.

Lemma zip_with_defined (f : float -> float -> float) (a b : list float) :
  (forall x y, positive_finite x = true -> positive_finite y = true ->
               Np.isnan (f x y) = false) ->
  Forall (fun p => positive_finite p = true) a ->
  Forall (fun p => positive_finite p = true) b ->
  Forall (fun e => Np.isnan e = false) (zip_with f a b).
Proof.
  intros Hf Ha. revert b. induction Ha as [|x a Hx Ha IH]; intros b Hb;
    [constructor|].
  destruct Hb as [|y b Hy Hb]; [constructor|].
  simpl. constructor; [now apply Hf|now apply IH].
Qed.

Lemma drawdowns_defined l :
  Forall (fun p => positive_finite p = true) l ->
  Forall (fun e => Np.isnan e = false) (drawdowns l).
Proof.
  intros Hl. rewrite drawdowns_zip.
  apply zip_with_defined; [apply drawdown_defined|exact Hl|].
  now apply cummax_positive_finite.
Qed.

End Drawdown.

(** ** The returns column *)

Section Returns.

Import IEEE.
Local Open Scope float_scope.

Lemma is_nan_eq x : is_nan x = true -> x = nan.
Proof. intros H. apply Prim2SF_inj. apply is_nan_spec in H. now rewrite H. Qed.

Lemma first_return_nan p : ((p / nan - 1) * 100)%float = nan.
Proof.
  apply is_nan_eq, is_nan_spec.
  rewrite mul_spec, sub_spec, div_spec.
  change (Prim2SF nan) with S754_nan.
  destruct (Prim2SF p) as [[]|[]| |[] m e]; reflexivity.
Qed.

Lemma removelast_length {A} (l : list A) : length (removelast l) = pred (length l).
Proof.
  rewrite removelast_firstn_len, length_take. lia.
Qed.

Lemma shift_length s : length (Series.shift s) = length s.
Proof.
  destruct s as [|x s]; [reflexivity|].
  unfold Series.shift. cbn [length]. now rewrite removelast_length.
Qed.

Lemma ffill_from_length s : forall last,
  length (Series.ffill_from last s) = length s.
Proof.
  induction s as [|x s IH]; intros last; [reflexivity|].
  simpl. destruct (Np.isnan x); simpl; now rewrite IH.
Qed.

Lemma ffill_length s : length (Series.ffill s) = length s.
Proof. apply ffill_from_length. Qed.

(** A series without NaN is its own padding. *)
Lemma ffill_from_id s : forall last,
  Forall (fun x => Np.isnan x = false) s -> Series.ffill_from last s = s.
Proof.
  induction s as [|x s IH]; intros last Hs; [reflexivity|].
  inversion Hs as [|? ? Hx Hs']; subst. simpl. rewrite Hx. now rewrite IH.
Qed.

Lemma ffill_id s :
  Forall (fun x => Np.isnan x = false) s -> Series.ffill s = s.
Proof. apply ffill_from_id. Qed.

Lemma daily_return_length s : length (daily_return s) = length s.
Proof.
  unfold daily_return, Series.scale, Series.pct_change.
  rewrite length_map, length_zip_with, shift_length, ffill_length. lia.
Qed.

Lemma daily_return_head p s :
  exists rest, daily_return (p :: s) = nan :: rest.
Proof.
  unfold daily_return, Series.scale, Series.pct_change, Series.ffill.
  simpl. destruct (Np.isnan p); simpl; rewrite first_return_nan; eauto.
Qed.

Lemma fillna_length v s : length (Series.fillna v s) = length s.
Proof. apply length_map. Qed.


Lemma fillna_lookup s i x :
  s !! i = Some x ->
  Series.fillna 0 s !! i = Some (if Np.isnan x then 0%float else x).
Proof. intros H. unfold Series.fillna. now rewrite list_lookup_fmap, H. Qed.


Lemma dropna_id s :
  Forall (fun x => Np.isnan x = false) s -> Series.dropna s = s.
Proof.
  unfold Series.dropna. induction 1 as [|x s Hx _ IH]; [reflexivity|].
  rewrite filter_cons_True by exact Hx. now rewrite IH.
Qed.







End Returns.

(** ** numpy's summation *)

Section Summation.
Local Open Scope nat_scope.

(** Where a long array is split: both parts are shorter. *)
Lemma split_point n :
  128 < n -> 0 < n / 2 - (n / 2) mod 8 < n.
Proof.
  intros Hn.
  pose proof (Nat.div_mod_eq n 2) as H1.
  pose proof (Nat.mod_upper_bound n 2) as H2.
  pose proof (Nat.mod_upper_bound (n / 2) 8) as H3.
  lia.
Qed.

(** The depth of the splitting never exceeds the length of the array:
    any fuel from the length on gives the same sum. *)
Lemma pairwise_sum_rec_fuel : forall f1 f2 a,
  length a <= f1 -> length a <= f2 ->
  Np.pairwise_sum_rec f1 a = Np.pairwise_sum_rec f2 a.
Proof.
  induction f1 as [|f1 IH]; intros f2 a H1 H2.
  - destruct a; [|simpl in H1; lia]. destruct f2; reflexivity.
  - destruct f2 as [|f2].
    + destruct a; [reflexivity|simpl in H2; lia].
    + cbn [Np.pairwise_sum_rec].
      destruct (length a <? 8) eqn:E8; [reflexivity|].
      destruct (length a <=? 128) eqn:E128; [reflexivity|].
      apply Nat.leb_gt in E128. pose proof (split_point _ E128) as Hs.
      f_equal; apply IH; rewrite ?length_take, ?length_drop; lia.
Qed.

(** The equation of [pairwise_sum], as the C function reads. *)
Lemma pairwise_sum_unfold a :
  Np.pairwise_sum a
  = let n := length a in
    if n <? 8 then Np.add_loop PrimFloat.neg_zero a
    else if n <=? 128 then Np.block_sum a
    else
      let n2 := n / 2 - (n / 2) mod 8 in
      (Np.pairwise_sum (take n2 a) + Np.pairwise_sum (drop n2 a))%float.
Proof.
  destruct a as [|x a']; [reflexivity|].
  unfold Np.pairwise_sum at 1. cbv zeta.
  change (length (x :: a')) with (S (length a')) at 1.
  cbn [Np.pairwise_sum_rec]. set (a := x :: a').
  assert (length a = S (length a')) as Ha by reflexivity.
  destruct (length a <? 8) eqn:E8; [reflexivity|].
  destruct (length a <=? 128) eqn:E128; [reflexivity|].
  apply Nat.leb_gt in E128. pose proof (split_point _ E128) as Hs.
  unfold Np.pairwise_sum.
  f_equal; apply pairwise_sum_rec_fuel; rewrite ?length_take, ?length_drop; lia.
Qed.

End Summation.

(** ** The standard deviation of a column *)

Section Deviation.
Import IEEE.
Local Open Scope float_scope.





End Deviation.

(** ** The transform on a series *)

Lemma iloc_last_nonempty (rows : list (Z * float)) :
  rows <> [] -> exists x, Series.iloc_last (map snd rows) = Some x /\ x ∈ map snd rows.
Proof.
  intros H. unfold Series.iloc_last.
  destruct (last (map snd rows)) as [x|] eqn:E.
  - exists x. split; [reflexivity|]. now apply last_Some_elem_of.
  - apply last_None in E. destruct rows; simpl in E; congruence.
Qed.

(** What the transform returns on a series with at least one sample whose
    timestamps fit the index. *)
Lemma analyze_rows rows out :
  rows <> [] -> forallb in_ns_range (map fst rows) = true ->
  exists cur,
    Series.iloc_last (map snd rows) = Some cur /\
    fetch_and_analyze_data (Json (Some rows)) out =
    (Ok (Some
       (let price := map snd rows in
        let vol := nan_to_zero
                     (if (length rows <? 2)%nat then 0%float
                      else (Series.std (daily_return price) * Np.sqrt 365)%float) in
        {| prices := price;
           current_price := cur;
           volatility := vol;
           max_drawdown := nan_to_zero
                             (if (length rows <? 2)%nat then 0%float
                              else Series.min (drawdowns price));
           risk_level := snd (get_risk_level vol);
           risk_color := fst (get_risk_level vol);
           daily_returns := Series.fillna 0 (daily_return price);
           timestamps := map (fun ms => ms * 1000000) (map fst rows) |})), out).
Proof.
  intros Hne Hts. destruct (iloc_last_nonempty rows Hne) as (cur & Hcur & _).
  exists cur. split; [exact Hcur|].
  unfold fetch_and_analyze_data, try_except, analyze_body, bind, fetch, ret,
    to_datetime_ms, iloc_last.
  rewrite Hts, Hcur. simpl.
  destruct (length rows <? 2)%nat; simpl; try reflexivity.
  destruct (get_risk_level _); reflexivity.
Qed.

Lemma nonneg_all_not_nan l :
  Forall (fun p => nonneg p = true) l -> Forall (fun p => Np.isnan p = false) l.
Proof. intros H. eapply Forall_impl; [exact H|]. intros p. apply nonneg_not_nan. Qed.

Lemma strictly_increasing_short (l : list float) :
  (length l < 2)%nat -> strictly_increasing l = true.
Proof. destruct l as [|a [|b l]]; simpl; try reflexivity; lia. Qed.

(** The short-circuit for fewer than two samples agrees with the column. *)
Lemma max_drawdown_guard l :
  Forall (fun p => nonneg p = true) l ->
  nan_to_zero (if (length l <? 2)%nat then 0%float else Series.min (drawdowns l))
  = nan_to_zero (Series.min (drawdowns l)).
Proof.
  intros Hl. destruct (length l <? 2)%nat eqn:E; [|reflexivity].
  apply Nat.ltb_lt in E. symmetry. apply min_zero_or_nan.
  apply drawdowns_increasing; [now apply strictly_increasing_short|exact Hl].
Qed.

(** The body of the transform never prints, and what it returns does not
    depend on what was printed before. *)
Lemma analyze_body_pure reply out :
  analyze_body reply out = (fst (analyze_body reply []), out).
Proof.
  unfold analyze_body, bind, fetch, ret, raise, to_datetime_ms, iloc_last.
  destruct reply as [e|[rows|]]; try reflexivity.
  destruct (forallb in_ns_range (map fst rows)); [|reflexivity].
  destruct (Series.iloc_last (map snd rows)); [|reflexivity].
  destruct (length rows <? 2)%nat; destruct (get_risk_level _); reflexivity.
Qed.

Lemma truthy_spec s : truthy s = true <-> s <> "".
Proof.
  unfold truthy. destruct (String.eqb_spec s ""); simpl; split; congruence.
Qed.

(** The users store after a run: the old one, or the old one with the new
    entry when every check of the form passes. *)
Lemma show_register_users f st :
  users (show_register f st).1.1
  = if submit f
       && negb (bool_decide (is_Some (users st !! new_user f)))
       && String.eqb (new_pass f) (confirm_pass f)
       && truthy (new_user f) && truthy (new_pass f)
    then <[new_user f := new_pass f]> (users st)
    else users st.
Proof.
  unfold show_register.
  destruct (submit f); simpl; [|destruct (back_to_login f); reflexivity].
  destruct (bool_decide _); simpl; [destruct (back_to_login f); reflexivity|].
  destruct (String.eqb _ _); simpl; [|destruct (back_to_login f); reflexivity].
  destruct (truthy (new_user f)); simpl; [|destruct (back_to_login f); reflexivity].
  destruct (truthy (new_pass f)); simpl; [|destruct (back_to_login f); reflexivity].
  reflexivity.
Qed.

(** ** Properties of the specification *)

(** C1, on the code.  A reply whose prices list is empty makes the
    transform raise IndexError (at [iloc[-1]], before the guard on the
    length); only a reply without prices entry gives [None].  A record is
    produced only for a series that is not empty. *)
Theorem empty_series_raises_index_error out :
  fetch_and_analyze_data (Json (Some [])) out
  = (Raise (IndexError "single positional indexer is out-of-bounds"),
     out ++ ["Error in calculation: single positional indexer is out-of-bounds"]) /\
  fetch_and_analyze_data (Json None) out = (Ok None, out) /\
  (forall reply r,
     fst (fetch_and_analyze_data reply out) = Ok (Some r) ->
     exists rows, reply = Json (Some rows) /\ rows <> []).
Proof.
  split; [reflexivity|]. split; [reflexivity|].
  intros [e|[[|row rows]|]] r H; try discriminate H.
  exists (row :: rows). split; [reflexivity|discriminate].
Qed.

(** The last part of C1 at [100, 110, 90, 120]: the transform returns a
    record, and the series is not empty. *)
Lemma empty_series_raises_index_error_witness :
  exists r rows,
    fst (fetch_and_analyze_data (Json (Some Examples.up_down)) []) = Ok (Some r) /\
    Json (Some Examples.up_down) = Json (Some rows) /\ rows <> [].
Proof.
  destruct (analyze_rows Examples.up_down []) as (cur & _ & E);
    [discriminate|reflexivity|].
  eexists.
  destruct (proj2 (proj2 (empty_series_raises_index_error []))
              (Json (Some Examples.up_down)) _ (f_equal fst E))
    as (rows & Hrows & Hne).
  exists rows. split; [exact (f_equal fst E)|]. split; [exact Hrows|exact Hne].
Defined.




(** C3.  For every non-empty series of prices [>= 0], [max_drawdown] is the
    minimum over all positions [i] of
    [(price[i] - running_peak[i]) / running_peak[i] * 100], the running peak
    being the maximum price at or before [i]: it is a lower bound of the
    drawdown at every position where that is defined and it is the drawdown
    at one of them (0 when it is defined at none, which takes a zero or an
    infinite price; with finite prices other than zero it is defined at
    every position).  It is [<= 0]; it is exactly 0 on a strictly increasing
    series; and on [100, 110, 90, 120] it is [(90 - 110) / 110 * 100], the
    float -18.181818181818183. *)
Theorem max_drawdown_min_over_running_peaks :
  (forall rows out,
     rows <> [] -> forallb in_ns_range (map fst rows) = true ->
     Forall (fun p => nonneg p = true) (map snd rows) ->
     let price := map snd rows in
     exists r,
       fetch_and_analyze_data (Json (Some rows)) out = (Ok (Some r), out) /\
       max_drawdown r = nan_to_zero (Spec.max_drawdown price) /\
       (forall i, (i < length price)%nat ->
          Np.isnan (Spec.drawdown_at price i) = false ->
          (max_drawdown r <=? Spec.drawdown_at price i)%float = true) /\
       ((exists i, (i < length price)%nat /\
                   Np.isnan (Spec.drawdown_at price i) = false /\
                   max_drawdown r = Spec.drawdown_at price i) \/
        ((forall i, (i < length price)%nat ->
                    Np.isnan (Spec.drawdown_at price i) = true) /\
         max_drawdown r = 0%float)) /\
       (Forall (fun p => positive_finite p = true) price ->
        forall i, (i < length price)%nat ->
                  Np.isnan (Spec.drawdown_at price i) = false) /\
       (max_drawdown r <=? 0)%float = true /\
       (strictly_increasing price = true -> max_drawdown r = 0%float)) /\
  (forall out,
     exists r,
       fetch_and_analyze_data (Json (Some Examples.up_down)) out
       = (Ok (Some r), out) /\
       max_drawdown r = ((90 - 110) / 110 * 100)%float /\
       max_drawdown r = (-0x1.22e8ba2e8ba2fp+4)%float).
Proof.
  split.
  - intros rows out Hne Hts Hnn price.
    destruct (analyze_rows rows out Hne Hts) as (cur & _ & ->).
    eexists. split; [reflexivity|]. cbn [max_drawdown].
    replace (length rows) with (length price) by apply length_map.
    subst price. rewrite (max_drawdown_guard _ Hnn).
    pose proof (drawdowns_spec _ (nonneg_all_not_nan _ Hnn)) as Hcol.
    destruct (min_characterised (drawdowns (map snd rows))) as [Hlow Hatt].
    split; [|split; [|split; [|split; [|split]]]].
    + unfold Spec.max_drawdown. now rewrite <- Hcol.
    + intros i Hi Hdef. apply Hlow; [|exact Hdef].
      rewrite Hcol. apply drawdown_positions. eauto.
    + destruct Hatt as [[Hin Hdef]|[Hnan Hz]].
      * left. rewrite Hcol in Hin at 2.
        apply drawdown_positions in Hin as (i & Hi & E).
        exists i. split; [exact Hi|]. split; [|exact E].
        rewrite <- E. apply nan_to_zero_not_nan.
      * right. split; [|exact Hz]. intros i Hi.
        rewrite Forall_forall in Hnan. apply Hnan.
        rewrite Hcol. apply drawdown_positions. eauto.
    + intros Hpos i Hi.
      pose proof (drawdowns_defined _ Hpos) as Hdef.
      rewrite Forall_forall in Hdef. apply Hdef.
      rewrite Hcol. apply drawdown_positions. eauto.
    + now apply max_drawdown_nonpos.
    + intros Hinc. apply min_zero_or_nan. now apply drawdowns_increasing.
  - intros out.
    destruct (analyze_rows Examples.up_down out) as (cur & _ & ->);
      [discriminate|reflexivity|].
    eexists. split; [reflexivity|]. split; reflexivity.
Qed.

(** The hypotheses of C3 hold of the strictly increasing series
    [1, 2, 4], whose maximum drawdown is 0. *)
Lemma max_drawdown_min_over_running_peaks_witness :
  Examples.rising <> [] /\
  forallb in_ns_range (map fst Examples.rising) = true /\
  Forall (fun p => nonneg p = true) (map snd Examples.rising) /\
  strictly_increasing (map snd Examples.rising) = true /\
  exists r,
    fetch_and_analyze_data (Json (Some Examples.rising)) [] = (Ok (Some r), []) /\
    max_drawdown r = 0%float.
Proof.
  split; [discriminate|]. split; [reflexivity|].
  split; [repeat constructor|]. split; [reflexivity|].
  destruct (proj1 max_drawdown_min_over_running_peaks Examples.rising [])
    as (r & Hr & _ & _ & _ & _ & _ & H);
    [discriminate|reflexivity|repeat constructor|].
  exists r. split; [exact Hr|]. apply H. reflexivity.
Defined.




(** C5.  [get_risk_level] is the ladder of the specification read top-down
    with strict [>], first match winning: above 100 EXTREME, above 60 and at
    most 100 HIGH, above 30 and at most 60 MODERATE, at most 30 LOW.  100 is
    HIGH, 100.0001 (and already the float next above 100) is EXTREME, 60 is
    MODERATE and 30 is LOW. *)
Theorem risk_ladder_strict vol :
  get_risk_level vol = Spec.classify Spec.ladder vol /\
  ((100 <? vol)%float = true -> get_risk_level vol = ("#ff2b2b", "EXTREME ☢️")) /\
  ((vol <=? 100)%float = true -> (60 <? vol)%float = true ->
   get_risk_level vol = ("#ff9f1c", "HIGH 🔥")) /\
  ((vol <=? 60)%float = true -> (30 <? vol)%float = true ->
   get_risk_level vol = ("#fbd400", "MODERATE ⚖️")) /\
  ((vol <=? 30)%float = true -> get_risk_level vol = Spec.low) /\
  get_risk_level 100 = ("#ff9f1c", "HIGH 🔥") /\
  get_risk_level 0x1.90001a36e2eb2p+6 = ("#ff2b2b", "EXTREME ☢️") /\
  get_risk_level (next_up 100) = ("#ff2b2b", "EXTREME ☢️") /\
  get_risk_level 60 = ("#fbd400", "MODERATE ⚖️") /\
  get_risk_level 30 = Spec.low.
Proof.
  assert (forall a b, (b <=? a)%float = true -> (a <? b)%float = false) as Hle.
  { intros a b H. destruct (a <? b)%float eqn:E; [|reflexivity].
    apply IEEE.ltb_not_leb in E. congruence. }
  assert (forall a b c, (c <=? b)%float = true -> (b <=? a)%float = true ->
                        (a <? c)%float = false) as Hle2.
  { intros a b c H1 H2. apply Hle. eapply IEEE.leb_trans; eauto. }
  unfold get_risk_level.
  split; [reflexivity|]. split; [intros ->; reflexivity|].
  split; [intros H1 H2; now rewrite (Hle _ _ H1), H2|].
  split.
  { intros H1 H2. rewrite (Hle _ _ H1), H2.
    now rewrite (Hle2 100%float 60%float vol H1 eq_refl). }
  split.
  { intros H1. rewrite (Hle _ _ H1).
    rewrite (Hle2 60%float 30%float vol H1 eq_refl).
    now rewrite (Hle2 100%float 30%float vol H1 eq_refl). }
  repeat split; reflexivity.
Qed.

(** The HIGH band of C5 at a volatility of 75. *)
Lemma risk_ladder_strict_witness :
  (75 <=? 100)%float = true /\ (60 <? 75)%float = true /\
  get_risk_level 75 = ("#ff9f1c", "HIGH 🔥").
Proof.
  split; [reflexivity|]. split; [reflexivity|].
  apply (proj1 (proj2 (proj2 (risk_ladder_strict 75)))); reflexivity.
Defined.

(** C6.  For every non-empty series, the record has as many daily returns
    as prices as timestamps (as many as samples), and its first daily
    return is 0. *)
Theorem returns_aligned_with_prices rows out :
  rows <> [] -> forallb in_ns_range (map fst rows) = true ->
  exists r,
    fetch_and_analyze_data (Json (Some rows)) out = (Ok (Some r), out) /\
    length (daily_returns r) = length (prices r) /\
    length (prices r) = length (timestamps r) /\
    length (prices r) = length rows /\
    daily_returns r !! 0%nat = Some 0%float.
Proof.
  intros Hne Hts.
  destruct (analyze_rows rows out Hne Hts) as (cur & _ & ->).
  eexists. split; [reflexivity|]. cbn [prices daily_returns timestamps].
  rewrite fillna_length, daily_return_length, !length_map.
  repeat split.
  destruct rows as [|[t p] rows]; [congruence|]. simpl map.
  destruct (daily_return_head p (map snd rows)) as [rest ->]. reflexivity.
Qed.

(** The hypotheses of C6 hold of [100, 110, 90, 120]. *)
Lemma returns_aligned_with_prices_witness :
  Examples.up_down <> [] /\
  forallb in_ns_range (map fst Examples.up_down) = true /\
  exists r,
    fetch_and_analyze_data (Json (Some Examples.up_down)) [] = (Ok (Some r), []) /\
    length (daily_returns r) = 4%nat /\
    daily_returns r !! 0%nat = Some 0%float.
Proof.
  split; [discriminate|]. split; [reflexivity|].
  destruct (returns_aligned_with_prices Examples.up_down [])
    as (r & Hr & H1 & _ & H2 & H3); [discriminate|reflexivity|].
  exists r. split; [exact Hr|]. split; [|exact H3].
  rewrite H1, H2. reflexivity.
Defined.




(** C8, on the code.  When the reply has no prices entry, the handler
    raises [HTTPException(404)] inside its own [try], catches it, and
    answers with status 500, as it does when the request fails; no reply at
    all is answered with 404. *)
Theorem not_found_answered_with_500 out :
  analyze_market (Json None) out
  = (Raise (HTTPException 500 "404: Coin data not found"),
     out ++ ["Error: 404: Coin data not found"]) /\
  http_status (fst (analyze_market (Json None) out)) = 500 /\
  (forall e, http_status (fst (analyze_market (Unreachable e) out)) = 500) /\
  (forall reply, http_status (fst (analyze_market reply out)) <> 404).
Proof.
  split; [reflexivity|]. split; [reflexivity|]. split; [reflexivity|].
  intros reply. unfold analyze_market, try_except, bind.
  destruct (fetch_and_analyze_data reply out) as [[[r|]|e] out']; simpl; discriminate.
Qed.

(** C9.  Every volatility is given one of the four tiers; the four tiers
    have four different colors and four different levels, so color and
    level determine each other; a NaN volatility is LOW. *)
Theorem risk_classification_total :
  (forall vol, get_risk_level vol ∈ Spec.tiers) /\
  NoDup (map fst Spec.tiers) /\
  NoDup (map snd Spec.tiers) /\
  length Spec.tiers = 4%nat /\
  (forall vol, Np.isnan vol = true -> get_risk_level vol = Spec.low).
Proof.
  split; [|split; [|split; [|split]]].
  - intros vol. unfold get_risk_level, Spec.tiers.
    repeat (destruct (_ <? vol)%float; [set_solver|]). set_solver.
  - apply (bool_decide_unpack _). vm_compute. exact I.
  - apply (bool_decide_unpack _). vm_compute. exact I.
  - reflexivity.
  - intros vol Hnan. unfold get_risk_level.
    now rewrite !(IEEE.ltb_nan_r _ vol Hnan).
Qed.

(** The last part of C9 at NaN. *)
Lemma risk_classification_total_witness :
  Np.isnan PrimFloat.nan = true /\ get_risk_level PrimFloat.nan = Spec.low.
Proof.
  split; [reflexivity|].
  apply (proj2 (proj2 (proj2 (proj2 risk_classification_total)))). reflexivity.
Defined.

(** C10.  Registration leaves the users store as it is when the username
    is taken, the passwords differ, a field is empty or the form was not
    submitted; it inserts the new entry exactly when the form was submitted
    with a free username, both fields filled and matching passwords; and no
    existing entry is ever changed. *)
Theorem register_inserts_if_absent (f : register_form) (st : session_state) :
  let st' := (show_register f st).1.1 in
  ((is_Some (users st !! new_user f) \/ new_pass f <> confirm_pass f \/
    new_user f = "" \/ new_pass f = "" \/ submit f = false) ->
   users st' = users st) /\
  ((submit f = true /\ users st !! new_user f = None /\
    new_pass f = confirm_pass f /\ new_user f <> "" /\ new_pass f <> "") ->
   users st' = <[new_user f := new_pass f]> (users st)) /\
  (users st' <> users st ->
   submit f = true /\ users st !! new_user f = None /\
   new_pass f = confirm_pass f /\ new_user f <> "" /\ new_pass f <> "") /\
  (forall u p, users st !! u = Some p -> users st' !! u = Some p).
Proof.
  cbv zeta. rewrite show_register_users.
  destruct (submit f) eqn:Hs; simpl; [|intuition congruence].
  destruct (bool_decide_reflect (is_Some (users st !! new_user f))) as [Hin|Hout];
    simpl.
  { repeat split; try intuition congruence.
    intros (_ & Hn & _). rewrite Hn in Hin. now destruct Hin. }
  apply eq_None_not_Some in Hout.
  destruct (String.eqb_spec (new_pass f) (confirm_pass f)) as [Heq|Hne]; simpl;
    [|intuition congruence].
  destruct (truthy (new_user f)) eqn:Hu; simpl.
  2:{ assert (new_user f = "") as Hu'.
      { destruct (String.eqb_spec (new_user f) "") as [|n]; [assumption|].
        apply truthy_spec in n. congruence. }
      intuition congruence. }
  destruct (truthy (new_pass f)) eqn:Hp; simpl.
  2:{ assert (new_pass f = "") as Hp'.
      { destruct (String.eqb_spec (new_pass f) "") as [|n]; [assumption|].
        apply truthy_spec in n. congruence. }
      intuition congruence. }
  apply truthy_spec in Hu, Hp.
  repeat split; try intuition congruence.
  - intros [[? Hx]|[?|[?|[?|?]]]]; congruence.
  - intros u p Hup. rewrite lookup_insert_ne; [exact Hup|]. congruence.
Qed.

(** The insertion case of C10 happens: a new user on the initial store. *)
Lemma register_inserts_if_absent_witness :
  let f := {| new_user := "alice"; new_pass := "s3cret"; confirm_pass := "s3cret";
              submit := true; back_to_login := false |} in
  users initial_session !! "alice" = None /\
  users (show_register f initial_session).1.1
  = <["alice" := "s3cret"]> (users initial_session) /\
  users (show_register f initial_session).1.1 !! "admin" = Some "1234".
Proof.
  intros f. split; [reflexivity|].
  destruct (register_inserts_if_absent f initial_session) as (_ & H & _ & K).
  split.
  - apply H. repeat split; try reflexivity; discriminate.
  - apply K. reflexivity.
Defined.

(** ** Further properties of the code *)

(** *** Signs and mixed order of floats *)

Module Sign.

Import IEEE.
Local Open Scope float_scope.

Lemma SFltb_leb_trans x y z :
  SFltb x y = true -> SFleb y z = true -> SFltb x z = true.
Proof.
  unfold SFltb, SFleb.
  destruct x as [[]|[]| |[] mx ex], y as [[]|[]| |[] my ey],
    z as [[]|[]| |[] mz ez]; simpl; try congruence; cmp_cases.
Qed.

Lemma ltb_leb_trans x y z :
  (x <? y) = true -> (y <=? z) = true -> (x <? z) = true.
Proof. rewrite !ltb_spec, leb_spec. apply SFltb_leb_trans. Qed.

(** Both ways [<=]: the same float, or two zeros. *)
Lemma SFleb_antisym x y :
  SFleb x y = true -> SFleb y x = true ->
  x = y \/ (exists sx sy, x = S754_zero sx /\ y = S754_zero sy).
Proof.
  unfold SFleb.
  destruct x as [[]|[]| |[] mx ex], y as [[]|[]| |[] my ey]; simpl;
    try congruence; eauto; cmp_cases; auto.
Qed.

(** What [0 <= x] means on the specification side. *)
Lemma nonneg_spec x : (0 <=? x) = true <-> SFnonneg (Prim2SF x).
Proof.
  rewrite leb_spec, Prim2SF_zero. unfold SFleb.
  destruct (Prim2SF x) as [s|[]| |[] m e]; simpl; split; try tauto; congruence.
Qed.

Section Rounded.
Local Open Scope Z_scope.
Variables prec emax : Z.

(** Rounding keeps the sign it is given. *)
Lemma binary_round_aux_nonneg mx ex lx :
  binary_round_aux prec emax false mx ex lx = S754_nan \/
  SFnonneg (binary_round_aux prec emax false mx ex lx).
Proof.
  unfold binary_round_aux.
  destruct (shr_fexp prec emax mx ex lx) as [mrs' e'].
  destruct (shr_fexp prec emax _ e' loc_Exact) as [mrs'' e''].
  destruct (shr_m mrs'') as [|m|m]; simpl; auto.
  destruct (e'' <=? emax - prec); simpl; auto.
Qed.

Lemma SFsqrt_nonneg x :
  SFsqrt prec emax x = S754_nan \/ SFnonneg (SFsqrt prec emax x).
Proof.
  destruct x as [s|[]| |[] m e]; simpl; auto.
  destruct (SFsqrt_core_binary prec emax (Z.pos m) e) as [[mz ez] lz].
  apply binary_round_aux_nonneg.
Qed.

Lemma SFmul_nonneg x my ey :
  SFnonneg x ->
  SFmul prec emax x (S754_finite false my ey) = S754_nan \/
  SFnonneg (SFmul prec emax x (S754_finite false my ey)).
Proof.
  destruct x as [s|[]| |[] m e]; simpl; try tauto; intros _; auto.
  apply binary_round_aux_nonneg.
Qed.

End Rounded.

Lemma Prim2SF_sqrt_365 : exists m e, Prim2SF (sqrt 365) = S754_finite false m e.
Proof. do 2 eexists. reflexivity. Qed.

(** An annualized standard deviation is NaN or [>= 0]. *)
Lemma annualized_sqrt_nonneg x :
  is_nan (sqrt x * sqrt 365) = true \/ (0 <=? sqrt x * sqrt 365) = true.
Proof.
  rewrite is_nan_spec, nonneg_spec, mul_spec, sqrt_spec.
  destruct Prim2SF_sqrt_365 as (m & e & ->).
  destruct (SFsqrt_nonneg prec emax (Prim2SF x)) as [H|H].
  - left. unfold SF64sqrt, SF64mul. now rewrite H.
  - apply SFmul_nonneg, H.
Qed.

End Sign.

(** *** backend.py *)

Section Ladders.
Import IEEE Sign.
Local Open Scope float_scope.

(** A threshold that a value exceeds is exceeded by every larger value. *)
Lemma exceeds_mono t v1 v2 :
  (v1 <=? v2) = true -> (t <? v1) = true -> (t <? v2) = true.
Proof. intros Hle Hlt. eapply ltb_leb_trans; eauto. Qed.

(** X1.  [get_risk_level] is monotone: a volatility that is at most another
    is never given a more severe tier than the other (tiers ranked by
    color, from LOW up to EXTREME). *)
Theorem risk_level_monotone v1 v2 :
  (v1 <=? v2)%float = true ->
  (color_rank (fst (get_risk_level v1)) <= color_rank (fst (get_risk_level v2)))%nat.
Proof.
  intros Hle. unfold get_risk_level.
  destruct (100 <? v1) eqn:E1; [rewrite (exceeds_mono _ _ _ Hle E1); reflexivity|].
  destruct (60 <? v1) eqn:E2.
  { rewrite (exceeds_mono _ _ _ Hle E2). destruct (100 <? v2); vm_compute; lia. }
  destruct (30 <? v1) eqn:E3.
  { rewrite (exceeds_mono _ _ _ Hle E3).
    destruct (100 <? v2); [vm_compute; lia|]. destruct (60 <? v2); vm_compute; lia. }
  destruct (100 <? v2); [vm_compute; lia|].
  destruct (60 <? v2); [vm_compute; lia|]. destruct (30 <? v2); vm_compute; lia.
Qed.

(** X1 at the volatilities 45 and 80. *)
Lemma risk_level_monotone_witness :
  (45 <=? 80)%float = true /\
  (color_rank (fst (get_risk_level 45)) <= color_rank (fst (get_risk_level 80)))%nat.
Proof. split; [reflexivity|]. apply risk_level_monotone. reflexivity. Defined.

(** X2.  [get_manual_risk_level] is monotone in the price change; it gives
    EXTREME RISK above 15, HIGH RISK in (7, 15], MODERATE RISK in (3, 7],
    and LOW RISK up to 3 and at NaN; and a manual tier has the color of the
    backend tier of the same rank. *)
Theorem manual_risk_level_ladder :
  (forall x1 x2,
     (x1 <=? x2) = true ->
     (color_rank (get_manual_risk_level x1).1.2
      <= color_rank (get_manual_risk_level x2).1.2)%nat) /\
  (forall x,
     ((15 <? x) = true -> (get_manual_risk_level x).1.1 = "EXTREME RISK ☢️") /\
     ((x <=? 15) = true -> (7 <? x) = true ->
      (get_manual_risk_level x).1.1 = "HIGH RISK 🔥") /\
     ((x <=? 7) = true -> (3 <? x) = true ->
      (get_manual_risk_level x).1.1 = "MODERATE RISK ⚖️") /\
     ((x <=? 3) = true -> (get_manual_risk_level x).1.1 = "LOW RISK 🛡️") /\
     (is_nan x = true -> (get_manual_risk_level x).1.1 = "LOW RISK 🛡️")) /\
  (forall x v,
     color_rank (get_manual_risk_level x).1.2 = color_rank (fst (get_risk_level v)) ->
     (get_manual_risk_level x).1.2 = fst (get_risk_level v)).
Proof.
  assert (forall a b, (b <=? a) = true -> (a <? b) = false) as Hle.
  { intros a b H. destruct (a <? b) eqn:E; [|reflexivity].
    apply ltb_not_leb in E. congruence. }
  assert (forall a b c, (c <=? b) = true -> (b <=? a) = true -> (a <? c) = false)
    as Hle2.
  { intros a b c H1 H2. apply Hle. eapply leb_trans; eauto. }
  split; [|split].
  - intros x1 x2 H. unfold get_manual_risk_level.
    destruct (15 <? x1) eqn:E1; [rewrite (exceeds_mono _ _ _ H E1); reflexivity|].
    destruct (7 <? x1) eqn:E2.
    { rewrite (exceeds_mono _ _ _ H E2). destruct (15 <? x2); vm_compute; lia. }
    destruct (3 <? x1) eqn:E3.
    { rewrite (exceeds_mono _ _ _ H E3).
      destruct (15 <? x2); [vm_compute; lia|].
      destruct (7 <? x2); vm_compute; lia. }
    destruct (15 <? x2); [vm_compute; lia|].
    destruct (7 <? x2); [vm_compute; lia|]. destruct (3 <? x2); vm_compute; lia.
  - intros x. unfold get_manual_risk_level.
    split; [intros ->; reflexivity|].
    split; [intros H1 H2; now rewrite (Hle _ _ H1), H2|].
    split.
    { intros H1 H2. rewrite (Hle2 15 7 x H1 eq_refl), (Hle _ _ H1), H2.
      reflexivity. }
    split.
    { intros H1. rewrite (Hle2 15 3 x H1 eq_refl), (Hle2 7 3 x H1 eq_refl).
      now rewrite (Hle _ _ H1). }
    intros Hnan. now rewrite !(ltb_nan_r _ x Hnan).
  - intros x v. unfold get_manual_risk_level, get_risk_level.
    destruct (15 <? x), (7 <? x), (3 <? x), (100 <? v), (60 <? v), (30 <? v);
      vm_compute; congruence.
Qed.

(** The MODERATE band of X2 at a price change of 5. *)
Lemma manual_risk_level_ladder_witness :
  (5 <=? 7)%float = true /\ (3 <? 5)%float = true /\
  (get_manual_risk_level 5).1.1 = "MODERATE RISK ⚖️".
Proof.
  split; [reflexivity|]. split; [reflexivity|].
  apply (proj2 manual_risk_level_ladder); reflexivity.
Defined.

End Ladders.

Section Volatility.
Import IEEE Sign.

Lemma nan_to_zero_nonneg x :
  Np.isnan x = true \/ (0 <=? x)%float = true ->
  (0 <=? nan_to_zero x)%float = true.
Proof.
  unfold nan_to_zero, Np.isnan. intros [H|H]; [now rewrite H|].
  now rewrite (leb_not_nan_r _ _ H).
Qed.

Lemma std_annualized_nonneg s :
  Np.isnan (Series.std s * Np.sqrt 365) = true \/
  (0 <=? Series.std s * Np.sqrt 365)%float = true.
Proof.
  unfold Series.std. apply annualized_sqrt_nonneg.
Qed.

(** X3.  For every non-empty series the volatility of the record is [>= 0]
    (so neither negative nor NaN), and the color and level of the record
    are those [get_risk_level] gives that volatility. *)
Theorem volatility_never_negative rows out :
  rows <> [] -> forallb in_ns_range (map fst rows) = true ->
  exists r,
    fetch_and_analyze_data (Json (Some rows)) out = (Ok (Some r), out) /\
    (0 <=? volatility r)%float = true /\
    (risk_color r, risk_level r) = get_risk_level (volatility r).
Proof.
  intros Hne Hts.
  destruct (analyze_rows rows out Hne Hts) as (cur & _ & ->).
  eexists. split; [reflexivity|]. cbn [volatility risk_color risk_level].
  split; [|now destruct (get_risk_level _)].
  apply nan_to_zero_nonneg.
  destruct (length rows <? 2)%nat; [right; reflexivity|].
  apply std_annualized_nonneg.
Qed.

(** The hypotheses of X3 hold of [100, 110, 90, 120]. *)
Lemma volatility_never_negative_witness :
  Examples.up_down <> [] /\
  forallb in_ns_range (map fst Examples.up_down) = true /\
  exists r,
    fetch_and_analyze_data (Json (Some Examples.up_down)) [] = (Ok (Some r), []) /\
    (0 <=? volatility r)%float = true.
Proof.
  split; [discriminate|]. split; [reflexivity|].
  destruct (volatility_never_negative Examples.up_down [])
    as (r & Hr & H & _); [discriminate|reflexivity|].
  exists r. split; [exact Hr|exact H].
Defined.

End Volatility.

Section Never_falls.
Import IEEE Sign.
Local Open Scope float_scope.

(** Two prices [>= 0] that are [<=] each other: at that peak the drawdown
    is 0 or undefined. *)
Lemma drawdown_level_peak p a :
  nonneg p = true -> nonneg a = true ->
  (a <=? p) = true -> (p <=? a) = true ->
  drawdown p a = 0 \/ Np.isnan (drawdown p a) = true.
Proof.
  intros Hp Ha H1 H2. rewrite leb_spec in H1, H2.
  destruct (SFleb_antisym _ _ H1 H2) as [E|(sa & sp & Ea & Ep)].
  - apply Prim2SF_inj in E. subst a. now apply drawdown_own_peak_nonneg.
  - right. eapply drawdown_zero_peak; eauto.
Qed.

Lemma non_decreasing_tail a l :
  non_decreasing (a :: l) = true -> non_decreasing l = true.
Proof. destruct l as [|b l]; simpl; [reflexivity|]. now intros [_ H]%andb_prop. Qed.

Lemma non_decreasing_skip a p l :
  non_decreasing (a :: p :: l) = true -> (p <=? a) = true ->
  non_decreasing (a :: l) = true.
Proof.
  simpl. intros [H1 H2]%andb_prop Hpa. destruct l as [|q l]; [reflexivity|].
  apply andb_prop in H2 as [H2 H3]. apply andb_true_intro. split; [|exact H3].
  eapply leb_trans; [exact H1|exact H2].
Qed.

Lemma drawdowns_never_fall_from l : forall a,
  nonneg a = true -> non_decreasing (a :: l) = true ->
  Forall (fun p => nonneg p = true) l ->
  Forall (fun e => e = 0 \/ Np.isnan e = true)
    (zip_with drawdown l (Series.cummax_from (Some a) l)).
Proof.
  induction l as [|p l IH]; intros a Ha Hmono Hl; [constructor|].
  inversion Hl as [|? ? Hp Hl']; subst.
  simpl. rewrite (nonneg_not_nan p Hp). simpl.
  assert ((a <=? p) = true) as Hap
    by (simpl in Hmono; now apply andb_prop in Hmono as [? _]).
  unfold Np.maximum. rewrite (nonneg_not_nan a Ha), orb_false_r.
  destruct (p <=? a) eqn:Hpa.
  - constructor; [now apply drawdown_level_peak|].
    apply IH; [exact Ha| |exact Hl']. now apply (non_decreasing_skip a p l).
  - constructor; [now apply drawdown_own_peak_nonneg|].
    apply IH; [exact Hp| |exact Hl']. now apply (non_decreasing_tail a).
Qed.

Lemma drawdowns_never_fall l :
  non_decreasing l = true -> Forall (fun p => nonneg p = true) l ->
  Forall (fun e => e = 0 \/ Np.isnan e = true) (drawdowns l).
Proof.
  rewrite drawdowns_zip. unfold Series.cummax.
  intros Hmono Hl. destruct Hl as [|p l Hp Hl]; [constructor|].
  simpl. rewrite (nonneg_not_nan p Hp). simpl.
  constructor; [now apply drawdown_own_peak_nonneg|].
  now apply drawdowns_never_fall_from.
Qed.

(** X4.  For a non-empty series of prices [>= 0] that never falls from one
    sample to the next, the max drawdown of the record is 0. *)
Theorem no_drawdown_when_prices_never_fall rows out :
  rows <> [] -> forallb in_ns_range (map fst rows) = true ->
  Forall (fun p => nonneg p = true) (map snd rows) ->
  non_decreasing (map snd rows) = true ->
  exists r,
    fetch_and_analyze_data (Json (Some rows)) out = (Ok (Some r), out) /\
    max_drawdown r = 0.
Proof.
  intros Hne Hts Hnn Hmono.
  destruct (analyze_rows rows out Hne Hts) as (cur & _ & ->).
  eexists. split; [reflexivity|]. cbn [max_drawdown].
  replace (length rows) with (length (map snd rows)) by apply length_map.
  rewrite (max_drawdown_guard _ Hnn).
  apply min_zero_or_nan. now apply drawdowns_never_fall.
Qed.

(** The hypotheses of X4 hold of [50, 50, 50]. *)
Lemma no_drawdown_when_prices_never_fall_witness :
  Examples.flat <> [] /\
  forallb in_ns_range (map fst Examples.flat) = true /\
  Forall (fun p => nonneg p = true) (map snd Examples.flat) /\
  non_decreasing (map snd Examples.flat) = true /\
  exists r,
    fetch_and_analyze_data (Json (Some Examples.flat)) [] = (Ok (Some r), []) /\
    max_drawdown r = 0.
Proof.
  split; [discriminate|]. split; [reflexivity|].
  split; [repeat constructor|]. split; [reflexivity|].
  apply no_drawdown_when_prices_never_fall;
    [discriminate|reflexivity|repeat constructor|reflexivity].
Defined.

End Never_falls.

Section Echo.

Lemma in_ns_range_bounds ms :
  in_ns_range ms = true -> - 2 ^ 63 < ms * 1000000 < 2 ^ 63.
Proof.
  unfold in_ns_range, ns_min, ns_max.
  rewrite andb_true_iff, !Z.leb_le. lia.
Qed.

Lemma nanoseconds_round_trip (col : list Z) :
  map (fun ns => ns / 1000000) (map (fun ms => ms * 1000000) col) = col.
Proof.
  induction col as [|ms col IH]; simpl; [reflexivity|].
  rewrite IH, Z.div_mul by lia. reflexivity.
Qed.

Lemma nanoseconds_in_int64 (col : list Z) :
  forallb in_ns_range col = true ->
  Forall (fun ns => - 2 ^ 63 < ns < 2 ^ 63) (map (fun ms => ms * 1000000) col).
Proof.
  induction col as [|ms col IH]; simpl; [constructor|].
  intros [H1 H2]%andb_prop. constructor; [now apply in_ns_range_bounds|auto].
Qed.

(** X5.  For every non-empty series the record echoes its input: the
    prices are the prices of the series in order, the current price is the
    last of them, and the timestamps are the milliseconds of the series in
    nanoseconds: dividing by 10^6 gives the input back, each one fits in
    int64, and their order is that of the input. *)
Theorem record_echoes_series rows out :
  rows <> [] -> forallb in_ns_range (map fst rows) = true ->
  exists r,
    fetch_and_analyze_data (Json (Some rows)) out = (Ok (Some r), out) /\
    prices r = map snd rows /\
    last (map snd rows) = Some (current_price r) /\
    map (fun ns => ns / 1000000) (timestamps r) = map fst rows /\
    Forall (fun ns => - 2 ^ 63 < ns < 2 ^ 63) (timestamps r) /\
    (forall i j a b,
       timestamps r !! i = Some a -> timestamps r !! j = Some b ->
       exists ti tj,
         map fst rows !! i = Some ti /\ map fst rows !! j = Some tj /\
         (a <= b <-> ti <= tj)).
Proof.
  intros Hne Hts.
  destruct (analyze_rows rows out Hne Hts) as (cur & Hcur & ->).
  eexists. split; [reflexivity|]. cbn [prices current_price timestamps].
  split; [reflexivity|]. split; [exact Hcur|].
  split; [apply nanoseconds_round_trip|].
  split; [now apply nanoseconds_in_int64|].
  intros i j a b Ha Hb. rewrite list_lookup_fmap in Ha, Hb.
  destruct (map fst rows !! i) as [ti|]; [|discriminate].
  destruct (map fst rows !! j) as [tj|]; [|discriminate].
  simpl in Ha, Hb. exists ti, tj.
  split; [reflexivity|]. split; [reflexivity|].
  injection Ha as <-. injection Hb as <-. lia.
Qed.

(** The hypotheses of X5 hold of [100, 110, 90, 120]. *)
Lemma record_echoes_series_witness :
  Examples.up_down <> [] /\
  forallb in_ns_range (map fst Examples.up_down) = true /\
  exists r,
    fetch_and_analyze_data (Json (Some Examples.up_down)) [] = (Ok (Some r), []) /\
    last (map snd Examples.up_down) = Some (current_price r) /\
    map (fun ns => ns / 1000000) (timestamps r) = map fst Examples.up_down.
Proof.
  split; [discriminate|]. split; [reflexivity|].
  destruct (record_echoes_series Examples.up_down [])
    as (r & Hr & _ & Hlast & Hts & _); [discriminate|reflexivity|].
  exists r. split; [exact Hr|]. split; [exact Hlast|exact Hts].
Defined.

Lemma shift_lookup (s : list float) i x :
  s !! i = Some x -> (S i < length s)%nat -> Series.shift s !! S i = Some x.
Proof.
  intros Hx Hi. unfold Series.shift. destruct s as [|y s]; [discriminate|].
  change ((PrimFloat.nan :: removelast (y :: s)) !! S i)
    with (removelast (y :: s) !! i).
  rewrite removelast_firstn_len.
  rewrite lookup_take_lt by (simpl in *; lia). exact Hx.
Qed.

(** The return between two consecutive entries of a column. *)
Lemma returns_lookup (data : list float) i prev cur :
  data !! i = Some prev -> data !! S i = Some cur ->
  Series.scale 100
    (zip_with (fun cur prev => (cur / prev - 1)%float) data (Series.shift data))
    !! S i
  = Some ((cur / prev - 1) * 100)%float.
Proof.
  intros Hprev Hcur. unfold Series.scale.
  rewrite list_lookup_fmap, lookup_zip_with, Hcur. simpl.
  rewrite (shift_lookup data i prev Hprev); [reflexivity|].
  now apply lookup_lt_Some in Hcur.
Qed.

Lemma daily_return_lookup (s : list float) i prev cur :
  Series.ffill s !! i = Some prev -> Series.ffill s !! S i = Some cur ->
  daily_return s !! S i = Some ((cur / prev - 1) * 100)%float.
Proof. apply returns_lookup. Qed.

(** What the padding puts at a position: the last entry at or before it
    that is not NaN. *)
Lemma ffill_from_lookup (s : list float) : forall last_seen i,
  (i < length s)%nat ->
  Series.ffill_from last_seen s !! i
  = Some (default (default PrimFloat.nan last_seen)
            (last (Series.dropna (take (S i) s)))).
Proof.
  unfold Series.dropna.
  induction s as [|x s IH]; intros last_seen i Hi; [simpl in Hi; lia|].
  cbn [Series.ffill_from]. destruct (Np.isnan x) eqn:Ex.
  - destruct i as [|j].
    + cbn [take]. rewrite filter_cons_False by (rewrite Ex; discriminate).
      simpl. destruct last_seen; [reflexivity|].
      simpl. f_equal. now apply is_nan_eq.
    + change (take (S (S j)) (x :: s)) with (x :: take (S j) s).
      rewrite filter_cons_False by (rewrite Ex; discriminate).
      apply IH. simpl in Hi. lia.
  - destruct i as [|j].
    + cbn [take]. rewrite filter_cons_True by exact Ex. reflexivity.
    + change (take (S (S j)) (x :: s)) with (x :: take (S j) s).
      rewrite filter_cons_True by exact Ex.
      change ((x :: Series.ffill_from (Some x) s) !! S j)
        with (Series.ffill_from (Some x) s !! j).
      rewrite IH by (simpl in Hi; lia). rewrite last_cons.
      now destruct (last _).
Qed.

Lemma ffill_lookup (s : list float) i :
  (i < length s)%nat -> Series.ffill s !! i = Some (last_valid s i).
Proof. intros Hi. unfold Series.ffill. now rewrite ffill_from_lookup. Qed.

(** X6.  For every non-empty series, the daily return at every position
    after the first is [(price / previous price - 1) * 100], with 0 in
    place of NaN, where the price at a position is the last price of the
    record at or before it that is not NaN: a missing price counts as the
    one before it.  When no price of the record is NaN these are the
    record's own prices. *)
Theorem daily_returns_position_by_position rows out :
  rows <> [] -> forallb in_ns_range (map fst rows) = true ->
  exists r,
    fetch_and_analyze_data (Json (Some rows)) out = (Ok (Some r), out) /\
    (forall i,
       (S i < length (prices r))%nat ->
       daily_returns r !! S i
       = Some (nan_to_zero
                 ((last_valid (prices r) (S i) / last_valid (prices r) i - 1)
                  * 100)%float)) /\
    (Forall (fun p => Np.isnan p = false) (prices r) ->
     forall i prev cur,
       prices r !! i = Some prev -> prices r !! S i = Some cur ->
       daily_returns r !! S i
       = Some (nan_to_zero ((cur / prev - 1) * 100)%float)).
Proof.
  intros Hne Hts.
  destruct (analyze_rows rows out Hne Hts) as (cur0 & _ & ->).
  eexists. split; [reflexivity|]. cbn [prices daily_returns]. split.
  - intros i Hi.
    rewrite (fillna_lookup _ (S i)
               ((last_valid (map snd rows) (S i) / last_valid (map snd rows) i - 1)
                * 100)%float); [reflexivity|].
    apply daily_return_lookup; apply ffill_lookup; lia.
  - intros Hdef i prev cur Hprev Hcur.
    rewrite (fillna_lookup _ (S i) ((cur / prev - 1) * 100)%float);
      [reflexivity|].
    apply daily_return_lookup; now rewrite (ffill_id _ Hdef).
Qed.

(** X6 at [1, null, 3, 2]: the return of the third sample is taken from
    the first price, 200 percent. *)
Lemma daily_returns_position_by_position_witness :
  Examples.gap <> [] /\
  forallb in_ns_range (map fst Examples.gap) = true /\
  exists r,
    fetch_and_analyze_data (Json (Some Examples.gap)) [] = (Ok (Some r), []) /\
    prices r !! 1%nat = Some PrimFloat.nan /\
    daily_returns r !! 2%nat = Some 200%float.
Proof.
  split; [discriminate|]. split; [reflexivity|].
  destruct (daily_returns_position_by_position Examples.gap [])
    as (r & Hr & H & _); [discriminate|reflexivity|].
  exists r. split; [exact Hr|].
  assert (prices r = map snd Examples.gap) as Hp.
  { destruct (analyze_rows Examples.gap []) as (cur & _ & E);
      [discriminate|reflexivity|].
    rewrite E in Hr. injection Hr as <-. reflexivity. }
  split; [now rewrite Hp|].
  rewrite (H 1%nat) by (rewrite Hp; vm_compute; lia).
  rewrite Hp. reflexivity.
Defined.

End Echo.

Section Outcomes.

Lemma analyze_body_outcome reply :
  match reply with
  | Unreachable e => fst (analyze_body reply []) = Raise e
  | Json None => fst (analyze_body reply []) = Ok None
  | Json (Some rows) =>
      if forallb in_ns_range (map fst rows) then
        match rows with
        | [] => exists msg, fst (analyze_body reply []) = Raise (IndexError msg)
        | _ :: _ => exists r, fst (analyze_body reply []) = Ok (Some r)
        end
      else exists msg, fst (analyze_body reply []) = Raise (OutOfBoundsDatetime msg)
  end.
Proof.
  destruct reply as [e|[rows|]]; try reflexivity.
  unfold analyze_body, bind, fetch, ret, raise, to_datetime_ms, iloc_last.
  destruct (forallb in_ns_range (map fst rows)) eqn:Hts; [|eauto].
  destruct rows as [|row rows]; [eauto|].
  destruct (iloc_last_nonempty (row :: rows)) as (cur & -> & _); [discriminate|].
  destruct (length (row :: rows) <? 2)%nat; destruct (get_risk_level _); simpl; eauto.
Qed.

Lemma fetch_and_analyze_data_unfold reply out :
  fetch_and_analyze_data reply out
  = match fst (analyze_body reply []) with
    | Ok a => (Ok a, out)
    | Raise e => (Raise e, out ++ [("Error in calculation: " ++ str e)%string])
    end.
Proof.
  unfold fetch_and_analyze_data, try_except.
  rewrite (analyze_body_pure reply out).
  destruct (fst (analyze_body reply [])); reflexivity.
Qed.

(** A record comes out of a non-empty series with timestamps in range,
    and of nothing else. *)
Lemma record_iff_series reply out :
  (exists r, fst (fetch_and_analyze_data reply out) = Ok (Some r)) <->
  exists rows, reply = Json (Some rows) /\ rows <> [] /\
               forallb in_ns_range (map fst rows) = true.
Proof.
  rewrite (fetch_and_analyze_data_unfold reply out).
  pose proof (analyze_body_outcome reply) as H.
  destruct reply as [e|[rows|]].
  - rewrite H. simpl. split; [intros [r Hr]; discriminate|].
    intros (rows & Hr & _). discriminate.
  - destruct (forallb in_ns_range (map fst rows)) eqn:Hts.
    + destruct rows as [|row rows]; destruct H as [x ->]; simpl.
      * split; [intros [r Hr]; discriminate|].
        intros (rows' & Hr & Hne & _). injection Hr as <-. congruence.
      * split; [|eauto]. intros _. exists (row :: rows).
        split; [reflexivity|]. split; [discriminate|exact Hts].
    + destruct H as [x ->]; simpl. split; [intros [r Hr]; discriminate|].
      intros (rows' & Hr & _ & Hts'). injection Hr as <-. congruence.
  - rewrite H. simpl. split; [intros [r Hr]; discriminate|].
    intros (rows & Hr & _). discriminate.
Qed.

(** X7.  The outcomes of [fetch_and_analyze_data]: it prints nothing when
    it returns and the one line [Error in calculation: e] when it raises
    [e]; the error of a failed request is raised again as it is; the result
    is [None] exactly when the reply has no prices entry; and it is a
    record exactly when the reply has a non-empty series whose timestamps
    are in the range of nanosecond datetimes. *)
Theorem transform_outcomes reply out :
  (exists res,
     fetch_and_analyze_data reply out
     = (res, out ++ match res with
                    | Ok _ => []
                    | Raise e => [("Error in calculation: " ++ str e)%string]
                    end)) /\
  (forall e, fst (fetch_and_analyze_data (Unreachable e) out) = Raise e) /\
  (fst (fetch_and_analyze_data reply out) = Ok None <-> reply = Json None) /\
  ((exists r, fst (fetch_and_analyze_data reply out) = Ok (Some r)) <->
   exists rows, reply = Json (Some rows) /\ rows <> [] /\
                forallb in_ns_range (map fst rows) = true).
Proof.
  split; [|split; [|split; [|apply record_iff_series]]].
  - rewrite (fetch_and_analyze_data_unfold reply out).
    destruct (fst (analyze_body reply [])) as [a|e];
      [exists (Ok a); now rewrite app_nil_r|exists (Raise e); reflexivity].
  - intros e. reflexivity.
  - rewrite (fetch_and_analyze_data_unfold reply out).
    pose proof (analyze_body_outcome reply) as H.
    destruct reply as [e|[rows|]].
    + rewrite H. simpl. split; discriminate.
    + destruct (forallb in_ns_range (map fst rows)).
      * destruct rows; destruct H as [x ->]; simpl; split; discriminate.
      * destruct H as [x ->]; simpl; split; discriminate.
    + rewrite H. simpl. split; reflexivity.
Qed.

(** The record case of X7 happens, at [100, 110, 90, 120]. *)
Lemma transform_outcomes_witness :
  exists r rows,
    fst (fetch_and_analyze_data (Json (Some Examples.up_down)) []) = Ok (Some r) /\
    Json (Some Examples.up_down) = Json (Some rows) /\ rows <> [] /\
    forallb in_ns_range (map fst rows) = true.
Proof.
  destruct (analyze_rows Examples.up_down []) as (cur & _ & E);
    [discriminate|reflexivity|].
  eexists.
  destruct (proj1 (proj2 (proj2 (proj2
              (transform_outcomes (Json (Some Examples.up_down)) []))))
            (ex_intro _ _ (f_equal fst E)))
    as (rows & Hrows & Hne & Hts).
  exists rows. split; [exact (f_equal fst E)|]. auto.
Defined.

(** X8.  [analyze_market] answers with the record of the transform, as it
    is and printing nothing, when there is one; when the transform raises
    [e] it answers 500 with the text of [e] as detail, after the two log
    lines; and its status is 200 exactly when the transform gives a
    record. *)
Theorem analyze_market_passes_record_through reply out :
  (forall r,
     fst (fetch_and_analyze_data reply out) = Ok (Some r) ->
     analyze_market reply out = (Ok r, out)) /\
  (forall e,
     fst (fetch_and_analyze_data reply out) = Raise e ->
     analyze_market reply out
     = (Raise (HTTPException 500 (str e)),
        out ++ [("Error in calculation: " ++ str e)%string; ("Error: " ++ str e)%string])) /\
  (http_status (fst (analyze_market reply out)) = 200 <->
   exists r, fst (fetch_and_analyze_data reply out) = Ok (Some r)).
Proof.
  unfold analyze_market, try_except, bind.
  rewrite (fetch_and_analyze_data_unfold reply out).
  destruct (fst (analyze_body reply [])) as [[r|]|e]; simpl.
  - split; [intros r' [= <-]; reflexivity|]. split; [discriminate|].
    split; [eauto|reflexivity].
  - split; [discriminate|]. split; [discriminate|].
    split; [discriminate|]. intros [r Hr]. discriminate.
  - split; [discriminate|]. split.
    + intros e' [= <-]. unfold print, raise. now rewrite <- app_assoc.
    + split; [discriminate|]. intros [r Hr]. discriminate.
Qed.

(** The record case of X8 happens, at [100, 110, 90, 120]. *)
Lemma analyze_market_passes_record_through_witness :
  exists r,
    fst (fetch_and_analyze_data (Json (Some Examples.up_down)) []) = Ok (Some r) /\
    analyze_market (Json (Some Examples.up_down)) [] = (Ok r, []).
Proof.
  destruct (analyze_rows Examples.up_down []) as (cur & _ & E);
    [discriminate|reflexivity|].
  eexists. split; [exact (f_equal fst E)|].
  exact (proj1 (analyze_market_passes_record_through
                  (Json (Some Examples.up_down)) []) _ (f_equal fst E)).
Defined.

End Outcomes.

(** *** frontend.py *)

Section Market.
Variable api_mode : M (option MarketDataResponse * list notice).

(** Direct mode, in terms of the body of the transform. *)
Lemma get_market_analysis_unfold reply out :
  get_market_analysis api_mode reply out
  = match fst (analyze_body reply []) with
    | Ok data => (Ok (data, []), out)
    | Raise e =>
        (Ok (None, [st_error ("Error processing data locally: " ++ str e)%string]),
         out ++ [("Error in calculation: " ++ str e)%string])
    end.
Proof.
  unfold get_market_analysis, USE_SEPARATE_BACKEND, try_except, bind.
  rewrite (fetch_and_analyze_data_unfold reply out).
  destruct (fst (analyze_body reply [])) as [a|e]; reflexivity.
Qed.

(** X9.  In direct mode [get_market_analysis] never raises: it returns
    what the transform returns and shows no error, and when the transform
    raises [e] it returns [None] and shows
    [Error processing data locally: e]. *)
Theorem get_market_analysis_never_raises reply out :
  match fst (fetch_and_analyze_data reply out) with
  | Ok data => get_market_analysis api_mode reply out = (Ok (data, []), out)
  | Raise e =>
      get_market_analysis api_mode reply out
      = (Ok (None, [st_error ("Error processing data locally: " ++ str e)%string]),
         out ++ [("Error in calculation: " ++ str e)%string])
  end.
Proof.
  rewrite get_market_analysis_unfold, (fetch_and_analyze_data_unfold reply out).
  destruct (fst (analyze_body reply [])) as [a|e]; reflexivity.
Qed.

(** X10.  A run of the dashboard without a logout returns, leaves the
    session as it is, and draws the manual scenario exactly when its button
    is pressed, and the record of the transform when there is one; the
    no-data error is the last error shown exactly when there is no record,
    and there is a record exactly for a non-empty series with timestamps
    in range. *)
Theorem dashboard_draws_record_or_no_data d st out :
  logout d = false ->
  exists view out',
    show_dashboard api_mode d st out = (Ok (st, Some view), out') /\
    manual_scenario view
    = (if analyze_button d
       then Some (get_manual_risk_level (manual_price_change d)) else None) /\
    live_data view
    = match fst (fetch_and_analyze_data (market_reply d) out) with
      | Ok data => data
      | Raise _ => None
      end /\
    (live_data view = None <->
     last (dashboard_errors view)
     = Some (st_error "⚠️ No data available or backend is unreachable.")) /\
    ((exists r, live_data view = Some r) <->
     exists rows, market_reply d = Json (Some rows) /\ rows <> [] /\
                  forallb in_ns_range (map fst rows) = true).
Proof.
  intros Hlog. unfold show_dashboard, bind. rewrite Hlog.
  pose proof (record_iff_series (market_reply d) out) as Hrec.
  rewrite get_market_analysis_unfold.
  rewrite (fetch_and_analyze_data_unfold (market_reply d) out) in *.
  destruct (fst (analyze_body (market_reply d) [])) as [[r|]|e];
    simpl; do 2 eexists; (split; [reflexivity|]); simpl;
    (split; [reflexivity|]); (split; [reflexivity|]); rewrite <- Hrec.
  - split; [split; discriminate|]. split; intros _; eauto.
  - split; [split; reflexivity|]. split; intros [x Hx]; discriminate.
  - split; [split; reflexivity|]. split; intros [x Hx]; discriminate.
Qed.

End Market.

(** X10 on a reply without a prices entry: the no-data error. *)
Lemma dashboard_draws_record_or_no_data_witness :
  let d := {| logout := false; manual_price_change := 5%float;
              analyze_button := true; market_reply := Json None |} in
  logout d = false /\
  exists view out',
    show_dashboard (ret (None, [])) d initial_session [] = (Ok (initial_session, Some view), out') /\
    live_data view = None /\
    last (dashboard_errors view)
    = Some (st_error "⚠️ No data available or backend is unreachable.").
Proof.
  intros d. split; [reflexivity|].
  destruct (dashboard_draws_record_or_no_data (ret (None, [])) d initial_session [] eq_refl)
    as (view & out' & Hrun & _ & Hdata & Herr & _).
  exists view, out'. split; [exact Hrun|]. split; [exact Hdata|].
  apply Herr. exact Hdata.
Defined.

Section Accounts.

Lemma show_login_users f st : users (show_login f st).1.1 = users st.
Proof.
  unfold show_login. destruct (sign_in f); simpl;
    [destruct (_ && _); simpl|]; destruct (create_new_account f); reflexivity.
Qed.

Lemma login_check_spec (st : session_state) u p :
  bool_decide (is_Some (users st !! u)) && bool_decide (users st !! u = Some p)
  = bool_decide (users st !! u = Some p).
Proof.
  destruct (bool_decide_reflect (users st !! u = Some p)) as [H|H];
    [|apply andb_false_r].
  rewrite andb_true_r. apply bool_decide_eq_true. rewrite H. eauto.
Qed.

(** X11.  [show_login] never changes the accounts.  Signing in with a user
    name and the password stored for it logs that user in; with any other
    pair the session stays logged in or out as it was, under the same user,
    and a sign-in shows the error; and a session that was logged out and is
    logged in after the run signed in with a stored pair. *)
Theorem login_needs_the_stored_password f st :
  let st' := (show_login f st).1.1 in
  users st' = users st /\
  (sign_in f = true ->
   users st !! username_input f = Some (password_input f) ->
   logged_in st' = true /\ username st' = Some (username_input f) /\
   page st' = page st) /\
  (users st !! username_input f <> Some (password_input f) ->
   logged_in st' = logged_in st /\ username st' = username st /\
   (sign_in f = true ->
    (show_login f st).1.2 = [st_error "Invalid Username or Password"])) /\
  (logged_in st = false -> logged_in st' = true ->
   sign_in f = true /\
   users st !! username_input f = Some (password_input f) /\
   username st' = Some (username_input f)).
Proof.
  cbv zeta. split; [apply show_login_users|].
  unfold show_login. rewrite login_check_spec.
  destruct (sign_in f) eqn:Hs; simpl.
  - destruct (bool_decide_reflect
                (users st !! username_input f = Some (password_input f)))
      as [Hok|Hbad]; simpl.
    + repeat split; try tauto.
    + destruct (create_new_account f); simpl; repeat split; try tauto;
        try congruence.
  - destruct (create_new_account f); simpl; repeat split; try tauto;
      try congruence.
Qed.

(** X11 for the demo account on the initial session. *)
Lemma login_needs_the_stored_password_witness :
  let f := {| username_input := "admin"; password_input := "1234";
              sign_in := true; create_new_account := false |} in
  sign_in f = true /\
  users initial_session !! username_input f = Some (password_input f) /\
  logged_in (show_login f initial_session).1.1 = true /\
  username (show_login f initial_session).1.1 = Some "admin".
Proof.
  intros f. split; [reflexivity|]. split; [reflexivity|].
  destruct (login_needs_the_stored_password f initial_session)
    as (_ & H & _). destruct (H eq_refl eq_refl) as (H1 & H2 & _). auto.
Defined.

End Accounts.

Section Registration.

(** A registration that passes every check. *)
Lemma show_register_accepts f st :
  submit f = true -> users st !! new_user f = None ->
  new_pass f = confirm_pass f -> new_user f <> "" -> new_pass f <> "" ->
  show_register f st
  = ({| logged_in := logged_in st; username := username st;
        users := <[new_user f := new_pass f]> (users st); page := "login" |},
     [st_success "Account Created! Please Login."], true).
Proof.
  intros Hs Hfree Hmatch Hu Hp. unfold show_register. rewrite Hs.
  rewrite bool_decide_eq_false_2 by (rewrite Hfree; now intros [? ?]).
  rewrite <- Hmatch, String.eqb_refl.
  apply truthy_spec in Hu, Hp. now rewrite Hu, Hp.
Qed.

(** A registration under a name that is taken. *)
Lemma show_register_refuses f st :
  submit f = true -> is_Some (users st !! new_user f) ->
  (show_register f st).1.1
  = (if back_to_login f
     then {| logged_in := logged_in st; username := username st;
             users := users st; page := "login" |}
     else st) /\
  (show_register f st).1.2 = [st_error "Username already exists!"].
Proof.
  intros Hs Htaken. unfold show_register. rewrite Hs.
  rewrite bool_decide_eq_true_2 by exact Htaken. simpl.
  destruct (back_to_login f); split; reflexivity.
Qed.

(** X12.  After a registration that passes the checks the page is the
    login page and nobody has been logged in by it; signing in with the new
    name and password logs that user in, signing in under the new name with
    any other password is refused, and the name cannot be registered
    again. *)
Theorem registered_account_can_log_in f st :
  submit f = true -> users st !! new_user f = None ->
  new_pass f = confirm_pass f -> new_user f <> "" -> new_pass f <> "" ->
  let st1 := (show_register f st).1.1 in
  let attempt p := {| username_input := new_user f; password_input := p;
                      sign_in := true; create_new_account := false |} in
  page st1 = "login" /\
  logged_in st1 = logged_in st /\ username st1 = username st /\
  logged_in (show_login (attempt (new_pass f)) st1).1.1 = true /\
  username (show_login (attempt (new_pass f)) st1).1.1 = Some (new_user f) /\
  (forall p, p <> new_pass f ->
     logged_in (show_login (attempt p) st1).1.1 = logged_in st /\
     (show_login (attempt p) st1).1.2 = [st_error "Invalid Username or Password"]) /\
  (forall f2, new_user f2 = new_user f -> submit f2 = true ->
     users (show_register f2 st1).1.1 = users st1 /\
     (show_register f2 st1).1.2 = [st_error "Username already exists!"]).
Proof.
  intros Hs Hfree Hmatch Hu Hp st1 attempt. subst st1.
  rewrite (show_register_accepts f st Hs Hfree Hmatch Hu Hp). cbn [fst snd].
  set (st1 := {| logged_in := logged_in st; username := username st;
                 users := <[new_user f := new_pass f]> (users st);
                 page := "login" |}).
  assert (users st1 !! new_user f = Some (new_pass f)) as Hin
    by apply lookup_insert_eq.
  split; [reflexivity|]. split; [reflexivity|]. split; [reflexivity|].
  assert (forall p, show_login (attempt p) st1
                    = if bool_decide (Some (new_pass f) = Some p)
                      then ({| logged_in := true; username := Some (new_user f);
                               users := users st1; page := page st1 |},
                            [st_success "Login Successful!"], true)
                      else (st1, [st_error "Invalid Username or Password"], false))
    as Hlogin.
  { intros p. unfold show_login, attempt. cbn [sign_in username_input
      password_input create_new_account]. rewrite login_check_spec, Hin.
    destruct (bool_decide (Some (new_pass f) = Some p)); reflexivity. }
  split; [|split; [|split]].
  - rewrite Hlogin, bool_decide_eq_true_2 by reflexivity. reflexivity.
  - rewrite Hlogin, bool_decide_eq_true_2 by reflexivity. reflexivity.
  - intros p Hne. rewrite Hlogin, bool_decide_eq_false_2 by congruence.
    split; reflexivity.
  - intros f2 Hsame Hs2.
    destruct (show_register_refuses f2 st1 Hs2) as [H1 H2].
    { rewrite Hsame, Hin. eauto. }
    split; [|exact H2]. rewrite H1. now destruct (back_to_login f2).
Qed.

(** The hypotheses of X12 hold of a new user on the initial session. *)
Lemma registered_account_can_log_in_witness :
  let f := {| new_user := "alice"; new_pass := "s3cret"; confirm_pass := "s3cret";
              submit := true; back_to_login := false |} in
  submit f = true /\ users initial_session !! new_user f = None /\
  new_pass f = confirm_pass f /\ new_user f <> "" /\ new_pass f <> "" /\
  logged_in
    (show_login {| username_input := "alice"; password_input := "s3cret";
                   sign_in := true; create_new_account := false |}
       (show_register f initial_session).1.1).1.1 = true.
Proof.
  intros f. split; [reflexivity|]. split; [reflexivity|]. split; [reflexivity|].
  split; [discriminate|]. split; [discriminate|].
  assert (new_user f <> "") as Hu by discriminate.
  assert (new_pass f <> "") as Hp by discriminate.
  exact (proj1 (proj2 (proj2 (proj2
           (registered_account_can_log_in f initial_session
              eq_refl eq_refl eq_refl Hu Hp))))).
Defined.

End Registration.

Section Runs.
Variable api_mode : M (option MarketDataResponse * list notice).

Lemma show_register_users_cases f st :
  users (show_register f st).1.1 = users st \/
  (users st !! new_user f = None /\ new_user f <> "" /\ new_pass f <> "" /\
   users (show_register f st).1.1 = <[new_user f := new_pass f]> (users st)).
Proof.
  rewrite show_register_users.
  destruct (submit f); simpl; [|now left].
  destruct (bool_decide_reflect (is_Some (users st !! new_user f))) as [H|H];
    simpl; [now left|].
  destruct (String.eqb _ _); simpl; [|now left].
  destruct (truthy (new_user f)) eqn:Hu; simpl; [|now left].
  destruct (truthy (new_pass f)) eqn:Hp; simpl; [|now left].
  right. apply truthy_spec in Hu, Hp. apply eq_None_not_Some in H. auto.
Qed.

Lemma show_register_session f st :
  logged_in (show_register f st).1.1 = logged_in st /\
  username (show_register f st).1.1 = username st /\
  (page (show_register f st).1.1 = page st \/
   page (show_register f st).1.1 = "login").
Proof.
  unfold show_register.
  destruct (submit f); simpl;
    [destruct (bool_decide _); simpl;
     [|destruct (negb _); simpl; [|destruct (_ || _); simpl]]|];
    destruct (back_to_login f); simpl; auto.
Qed.

Lemma show_login_session f st :
  (logged_in (show_login f st).1.1 = logged_in st /\
   username (show_login f st).1.1 = username st \/
   logged_in (show_login f st).1.1 = true /\
   username (show_login f st).1.1 = Some (username_input f) /\
   is_Some (users st !! username_input f)) /\
  (page (show_login f st).1.1 = page st \/
   page (show_login f st).1.1 = "register").
Proof.
  unfold show_login.
  destruct (sign_in f); simpl.
  - destruct (bool_decide_reflect (is_Some (users st !! username_input f)))
      as [H|H]; simpl.
    + destruct (bool_decide _); simpl; [auto|].
      destruct (create_new_account f); simpl; auto.
    + destruct (create_new_account f); simpl; auto.
  - destruct (create_new_account f); simpl; auto.
Qed.

(** One run: it returns, and the state it leaves is that of the page it
    drew. *)
Lemma app_run w st out :
  exists st' drawn out',
    app api_mode w st out = (Ok (st', drawn), out') /\
    (if logged_in st
     then (st' = st \/
           st' = {| logged_in := false; username := None;
                    users := users st; page := page st |}) /\
          (exists view, drawn = DashboardPage view)
     else out' = out /\
          if String.eqb (page st) "register"
          then st' = (show_register (on_register w) st).1.1 /\
               drawn = RegisterPage (show_register (on_register w) st).1.2
          else st' = (show_login (on_login w) st).1.1 /\
               drawn = LoginPage (show_login (on_login w) st).1.2).
Proof.
  unfold app. destruct (logged_in st).
  - unfold bind, show_dashboard. destruct (logout (on_dashboard w)).
    + simpl. do 3 eexists. split; [reflexivity|]. split; [now right|eauto].
    + unfold bind.
      rewrite get_market_analysis_unfold.
      destruct (fst (analyze_body (market_reply (on_dashboard w)) []))
        as [[r|]|e];
        simpl; do 3 eexists; (split; [reflexivity|]);
        (split; [now left|eauto]).
  - destruct (String.eqb (page st) "register").
    + destruct (show_register (on_register w) st) as [[st' shown] rerun].
      do 3 eexists. split; [reflexivity|]. auto.
    + destruct (show_login (on_login w) st) as [[st' shown] rerun].
      do 3 eexists. split; [reflexivity|]. auto.
Qed.

Lemma app_keeps_accounts w st out st' drawn out' :
  app api_mode w st out = (Ok (st', drawn), out') ->
  forall u p, users st !! u = Some p -> users st' !! u = Some p.
Proof.
  intros Hrun u p Hup.
  destruct (app_run w st out) as (st2 & drawn2 & out2 & E & H).
  rewrite E in Hrun. injection Hrun as <- <- <-.
  destruct (logged_in st).
  - destruct H as [[-> | ->] _]; exact Hup.
  - destruct H as [_ H]. destruct (String.eqb (page st) "register").
    + destruct H as [-> _].
      destruct (show_register_users_cases (on_register w) st)
        as [-> | (Hfree & _ & _ & ->)]; [exact Hup|].
      rewrite lookup_insert_ne; [exact Hup|]. congruence.
    + destruct H as [-> _]. now rewrite show_login_users.
Qed.

Lemma app_keeps_session_ok w st out st' drawn out' :
  app api_mode w st out = (Ok (st', drawn), out') ->
  session_ok st -> session_ok st'.
Proof.
  intros Hrun Hok. pose proof Hok as (Hadmin & Hfilled & Hin & Hout & Hpage).
  destruct (app_run w st out) as (st2 & drawn2 & out2 & E & H).
  rewrite E in Hrun. injection Hrun as <- <- <-.
  destruct (logged_in st) eqn:Hlog.
  - destruct H as [[-> | ->] _]; [exact Hok|].
    unfold session_ok; simpl.
    split; [exact Hadmin|]. split; [exact Hfilled|].
    split; [discriminate|]. split; [reflexivity|exact Hpage].
  - destruct H as [_ H]. destruct (String.eqb (page st) "register").
    + destruct H as [-> _].
      destruct (show_register_session (on_register w) st) as (Hl & Hu & Hp).
      unfold session_ok. rewrite Hl, Hu, Hlog.
      assert (forall u p, users st !! u = Some p ->
                          users (show_register (on_register w) st).1.1 !! u
                          = Some p) as Hkeep.
      { intros u p Hup.
        destruct (show_register_users_cases (on_register w) st)
          as [-> | (Hfree & _ & _ & ->)]; [exact Hup|].
        rewrite lookup_insert_ne; [exact Hup|]. congruence. }
      split; [now apply Hkeep|]. split; [|split; [discriminate|split]].
      * intros u p.
        destruct (show_register_users_cases (on_register w) st)
          as [-> | (Hfree & Hnu & Hnp & ->)]; [apply Hfilled|].
        destruct (decide (new_user (on_register w) = u)) as [<-|Hne].
        -- rewrite lookup_insert_eq. intros [= <-]. auto.
        -- rewrite lookup_insert_ne by exact Hne. apply Hfilled.
      * auto.
      * destruct Hp as [-> | ->]; auto.
    + destruct H as [-> _].
      destruct (show_login_session (on_login w) st) as (Hsess & Hp).
      unfold session_ok. rewrite show_login_users.
      split; [exact Hadmin|]. split; [exact Hfilled|].
      split; [|split].
      * intros Hl. destruct Hsess as [[E1 E2]|(E1 & E2 & E3)].
        -- congruence.
        -- rewrite E2. eauto.
      * intros Hl. destruct Hsess as [[E1 E2]|(E1 & E2 & E3)]; [|congruence].
        rewrite E2. now apply Hout.
      * destruct Hp as [-> | ->]; auto.
Qed.

Lemma initial_session_ok : session_ok initial_session.
Proof.
  unfold session_ok, initial_session. simpl.
  split; [reflexivity|]. split; [|split; [discriminate|auto]].
  intros u p H. apply lookup_singleton_Some in H as [<- <-].
  split; discriminate.
Qed.

(** X13.  After any sequence of runs from the initial session, whatever
    the user entered in each: the demo account admin/1234 is there, no
    account has an empty name or password, a logged-in session names a
    registered user, a logged-out session names nobody, and the page is
    login or register. *)
Theorem session_stays_well_formed ws out :
  session_ok (session_after api_mode ws initial_session out).
Proof.
  generalize initial_session_ok. generalize initial_session. revert out.
  induction ws as [|w ws IH]; intros out st Hok; [exact Hok|].
  simpl. destruct (app_run w st out) as (st' & drawn & out' & E & _).
  rewrite E. apply IH. eapply app_keeps_session_ok; eauto.
Qed.

(** X14.  No run removes an account or changes its password: an account
    of the session is there with the same password after any sequence of
    runs. *)
Theorem accounts_are_never_lost ws st out u p :
  users st !! u = Some p ->
  users (session_after api_mode ws st out) !! u = Some p.
Proof.
  revert st out. induction ws as [|w ws IH]; intros st out Hup; [exact Hup|].
  simpl. destruct (app_run w st out) as (st' & drawn & out' & E & _).
  rewrite E. apply IH. eapply app_keeps_accounts; eauto.
Qed.

(** X15.  A run of the script returns; it draws the dashboard exactly
    when the session is logged in; and a run of a logged-out session prints
    nothing, so it does not reach the transform. *)
Theorem dashboard_only_when_logged_in w st out :
  exists st' drawn out',
    app api_mode w st out = (Ok (st', drawn), out') /\
    ((exists view, drawn = DashboardPage view) <-> logged_in st = true) /\
    (logged_in st = false -> out' = out).
Proof.
  destruct (app_run w st out) as (st' & drawn & out' & E & H).
  exists st', drawn, out'. split; [exact E|].
  destruct (logged_in st).
  - destruct H as [_ Hd]. split; [tauto|discriminate].
  - destruct H as [Hout H]. split; [|auto].
    split; [|discriminate]. intros [view Hv].
    destruct (String.eqb (page st) "register"); destruct H as [_ H]; congruence.
Qed.

End Runs.

(** X14 for the demo account over three runs. *)
Lemma accounts_are_never_lost_witness :
  let w := {| on_login := {| username_input := "admin"; password_input := "0000";
                             sign_in := true; create_new_account := true |};
              on_register := {| new_user := "alice"; new_pass := "s3cret";
                                confirm_pass := "s3cret"; submit := true;
                                back_to_login := false |};
              on_dashboard := {| logout := true; manual_price_change := 5%float;
                                 analyze_button := false;
                                 market_reply := Json None |} |} in
  users initial_session !! "admin" = Some "1234" /\
  users (session_after (ret (None, [])) [w; w; w] initial_session []) !! "admin"
  = Some "1234".
Proof.
  intros w. split; [reflexivity|].
  apply (accounts_are_never_lost (ret (None, [])) [w; w; w] initial_session []).
  reflexivity.
Defined.
